(** * 5COIN backend: the balance and transaction-ledger handlers

    A shallow embedding of [backend/server.js]: the Express handlers
    [/api/user/:userId], [/api/user/:userId/coins], [/api/swap], [/api/bet],
    [/api/withdraw], [/api/referral] and the Telegram [/start] command,
    written as state-passing functions over the two Mongo collections
    (users, transactions) and the stream of [Math.random()] draws.

    Number model.  A JavaScript Number is embedded as an exact rational
    extended with [+Infinity], [-Infinity] and [NaN]; the operators follow
    IEEE-754 on the special values, and are exact on finite ones (binary
    rounding and the sign of zero are not represented).  Equalities between
    amounts are therefore stated up to [==] on [Q].  Results about the
    handlers are stated through the handlers' own operations, or as
    comparisons that binary64 rounding preserves; where rounding decides a
    question, the arithmetic of the handlers is evaluated on binary64 in
    [Binary64].

    Store model.  [User.findOne] returns the first matching document,
    [doc.save()] writes back the paths the handler assigned (a new document
    is inserted), [$inc] adds in place.  The schema declares the balances as
    [Number], and Mongoose refuses [NaN] for such a path: when a handler has
    assigned [NaN] to a balance, [await user.save()] rejects, the handler's
    [catch] answers 500 and nothing is written ([validate]).  In
    [/api/referral] and [/start] the numbers assigned are a stored number
    plus a constant, and are written as computed.  Timestamps ([createdAt],
    [timestamp]) are left out. *)

From Stdlib Require Import QArith Lqa ZArith NArith Bool List String Ascii.
From Stdlib Require Import Lia.
From Stdlib Require HexadecimalString HexadecimalZ HexadecimalPos.
From Stdlib Require Floats.
Import ListNotations.

Open Scope Q_scope.

(** ** JavaScript numbers *)

Inductive num : Type :=
| Fin (q : Q)
| PInf
| NInf
| NaN.

Declare Scope num_scope.
Delimit Scope num_scope with num.
Bind Scope num_scope with num.

Definition Qsign_mul (q : Q) (pos neg : num) : num :=
  match Qcompare q 0 with
  | Gt => pos
  | Lt => neg
  | Eq => NaN
  end.

Definition num_neg (x : num) : num :=
  match x with
  | Fin a => Fin (- a)
  | PInf => NInf
  | NInf => PInf
  | NaN => NaN
  end.

Definition num_add (x y : num) : num :=
  match x, y with
  | NaN, _ | _, NaN => NaN
  | Fin a, Fin b => Fin (a + b)
  | PInf, NInf | NInf, PInf => NaN
  | PInf, _ | _, PInf => PInf
  | NInf, _ | _, NInf => NInf
  end.

Definition num_sub (x y : num) : num :=
  match x, y with
  | NaN, _ | _, NaN => NaN
  | Fin a, Fin b => Fin (a - b)
  | PInf, PInf | NInf, NInf => NaN
  | PInf, _ | _, NInf => PInf
  | NInf, _ | _, PInf => NInf
  end.

Definition num_mul (x y : num) : num :=
  match x, y with
  | NaN, _ | _, NaN => NaN
  | Fin a, Fin b => Fin (a * b)
  | Fin a, PInf | PInf, Fin a => Qsign_mul a PInf NInf
  | Fin a, NInf | NInf, Fin a => Qsign_mul a NInf PInf
  | PInf, PInf | NInf, NInf => PInf
  | PInf, NInf | NInf, PInf => NInf
  end.

(** [x < y]; any comparison with [NaN] is [false]. *)
Definition num_ltb (x y : num) : bool :=
  match x, y with
  | NaN, _ | _, NaN => false
  | Fin a, Fin b => negb (Qle_bool b a)
  | _, NInf => false
  | NInf, _ => true
  | PInf, _ => false
  | Fin _, PInf => true
  end.

Definition num_gtb (x y : num) : bool := num_ltb y x.

(** [x >= y]; any comparison with [NaN] is [false]. *)
Definition num_geb (x y : num) : bool :=
  match x, y with
  | NaN, _ | _, NaN => false
  | _, _ => negb (num_ltb x y)
  end.

Infix "+" := num_add : num_scope.
Infix "-" := num_sub : num_scope.
Infix "*" := num_mul : num_scope.
Infix "<?" := num_ltb : num_scope.
Infix ">?" := num_gtb : num_scope.
Infix ">=?" := num_geb : num_scope.
Notation "- x" := (num_neg x) : num_scope.

(** Numeric value of a property read: a missing property is [undefined],
    and [undefined] in arithmetic is [NaN]. *)
Definition to_number (o : option Q) : num :=
  match o with
  | Some q => Fin q
  | None => NaN
  end.

(** Equality of amounts, up to the representation of the fraction. *)
Definition num_eq (x y : num) : Prop :=
  match x, y with
  | Fin a, Fin b => a == b
  | PInf, PInf | NInf, NInf | NaN, NaN => True
  | _, _ => False
  end.

Infix "=n=" := num_eq (at level 70, no associativity).

(** [x >= 0]: a finite number that is [>= 0], or [+Infinity]. *)
Definition nonneg (x : num) : Prop :=
  match x with
  | Fin a => 0 <= a
  | PInf => True
  | _ => False
  end.

(** [isNaN(x)] *)
Definition num_isNaN (x : num) : bool :=
  match x with
  | NaN => true
  | _ => false
  end.

(** ** Currencies and balances *)

Inductive coin : Type := nc | sc | gc | dc | ska.

Definition coin_eqb (a b : coin) : bool :=
  match a, b with
  | nc, nc | sc, sc | gc, gc | dc, dc | ska, ska => true
  | _, _ => false
  end.

(** The [coins] sub-document of the user schema. *)
Record Coins : Type := mkCoins {
  c_nc : num;
  c_sc : num;
  c_gc : num;
  c_dc : num;
  c_ska : num
}.

(** [coins[c]] *)
Definition coins_get (cs : Coins) (c : coin) : num :=
  match c with
  | nc => c_nc cs
  | sc => c_sc cs
  | gc => c_gc cs
  | dc => c_dc cs
  | ska => c_ska cs
  end.

(** [coins[c] = v] *)
Definition coins_set (cs : Coins) (c : coin) (v : num) : Coins :=
  match c with
  | nc => mkCoins v (c_sc cs) (c_gc cs) (c_dc cs) (c_ska cs)
  | sc => mkCoins (c_nc cs) v (c_gc cs) (c_dc cs) (c_ska cs)
  | gc => mkCoins (c_nc cs) (c_sc cs) v (c_dc cs) (c_ska cs)
  | dc => mkCoins (c_nc cs) (c_sc cs) (c_gc cs) v (c_ska cs)
  | ska => mkCoins (c_nc cs) (c_sc cs) (c_gc cs) (c_dc cs) v
  end.

(** ** Documents and collections *)

(** The user schema. *)
Record User : Type := mkUser {
  userId : Z;
  username : option string;
  firstName : option string;
  lastName : option string;
  referralCode : string;
  referredBy : option string;
  coins : Coins;
  referrals : num;
  earned : num
}.

(** The [result] object stored by [/api/bet]. *)
Record BetResult : Type := mkBetResult {
  win : bool;
  result_amount : num
}.

(** The [details] payload of a transaction, one shape per handler. *)
Inductive Details : Type :=
| SwapDetails (fromCoin toCoin : coin) (amount received fee : num)
| BetDetails (coinType : coin) (amount : num) (avatar : string)
    (result : BetResult)
| WithdrawalDetails (coinType : coin) (amount : num) (method details : string)
    (etbValue fee received : num)
| ReferralDetails (referredUserId : Z) (bonus : num).

(** The transaction schema. *)
Record Transaction : Type := mkTransaction {
  t_userId : Z;
  t_type : string;
  t_details : Details
}.

(** The paths of a user document that the handlers assign. *)
Inductive path : Type :=
| PReferredBy
| PReferrals
| PEarned
| PCoin (c : coin).

(** The server's world: both collections and the random source, of which
    [random_used] draws have been consumed. *)
Record state : Type := mkState {
  users : list User;
  transactions : list Transaction;
  random_source : nat -> Q;
  random_used : nat
}.

Definition set_users (s : state) (us : list User) : state :=
  mkState us (transactions s) (random_source s) (random_used s).

(** [await transaction.save()] for a new transaction. *)
Definition record_transaction (s : state) (t : Transaction) : state :=
  mkState (users s) (transactions s ++ [t]) (random_source s) (random_used s).

(** [Math.random()] *)
Definition Math_random (s : state) : Q * state :=
  (random_source s (random_used s),
   mkState (users s) (transactions s) (random_source s) (S (random_used s))).

(** [User.findOne({ userId })] *)
Definition findOne_userId (us : list User) (uid : Z) : option User :=
  find (fun u => Z.eqb (userId u) uid) us.

(** [User.findOne({ referralCode })] *)
Definition findOne_referralCode (us : list User) (code : string)
  : option User :=
  find (fun u => String.eqb (referralCode u) code) us.

Definition set_coins (u : User) (cs : Coins) : User :=
  mkUser (userId u) (username u) (firstName u) (lastName u) (referralCode u)
         (referredBy u) cs (referrals u) (earned u).

Definition set_referredBy (u : User) (r : option string) : User :=
  mkUser (userId u) (username u) (firstName u) (lastName u) (referralCode u)
         r (coins u) (referrals u) (earned u).

Definition set_referrals (u : User) (n : num) : User :=
  mkUser (userId u) (username u) (firstName u) (lastName u) (referralCode u)
         (referredBy u) (coins u) n (earned u).

Definition set_earned (u : User) (n : num) : User :=
  mkUser (userId u) (username u) (firstName u) (lastName u) (referralCode u)
         (referredBy u) (coins u) (referrals u) n.

(** Copy one assigned path of the in-memory document [doc] into the stored
    document [stored]. *)
Definition write_path (doc : User) (stored : User) (p : path) : User :=
  match p with
  | PReferredBy => set_referredBy stored (referredBy doc)
  | PReferrals => set_referrals stored (referrals doc)
  | PEarned => set_earned stored (earned doc)
  | PCoin c => set_coins stored (coins_set (coins stored) c
                                           (coins_get (coins doc) c))
  end.

(** The cast Mongoose applies to a value assigned to a path: a [Number]
    path refuses [NaN]. *)
Definition valid_path (doc : User) (p : path) : bool :=
  match p with
  | PReferredBy => true
  | PReferrals => negb (num_isNaN (referrals doc))
  | PEarned => negb (num_isNaN (earned doc))
  | PCoin c => negb (num_isNaN (coins_get (coins doc) c))
  end.

(** Whether [await doc.save()] goes through, given the paths assigned. *)
Definition validate (doc : User) (modified : list path) : bool :=
  forallb (valid_path doc) modified.

(** [await doc.save()] for a document read from the collection: the
    assigned paths are written to the stored document of the same user. *)
Definition save (us : list User) (doc : User) (modified : list path)
  : list User :=
  map (fun stored =>
         if Z.eqb (userId stored) (userId doc)
         then fold_left (write_path doc) modified stored
         else stored) us.

(** [await doc.save()] for a document made with [new User]. *)
Definition insert (us : list User) (doc : User) : list User := us ++ [doc].

(** Truthiness of a nullable string: [null] and the empty string are falsy. *)
Definition truthy (o : option string) : bool :=
  match o with
  | Some s => negb (String.eqb s "")
  | None => false
  end.

(** ** Rate tables *)

(** [exchangeRates[fromCoin][toCoin]]; the table has no diagonal entry. *)
Definition exchangeRates (fromCoin toCoin : coin) : option Q :=
  match fromCoin, toCoin with
  | nc, sc => Some 10 | nc, gc => Some 100
  | nc, dc => Some 1000 | nc, ska => Some 10000
  | sc, nc => Some 0.1 | sc, gc => Some 10
  | sc, dc => Some 100 | sc, ska => Some 1000
  | gc, nc => Some 0.01 | gc, sc => Some 0.1
  | gc, dc => Some 10 | gc, ska => Some 100
  | dc, nc => Some 0.001 | dc, sc => Some 0.01
  | dc, gc => Some 0.1 | dc, ska => Some 10
  | ska, nc => Some 0.0001 | ska, sc => Some 0.001
  | ska, gc => Some 0.01 | ska, dc => Some 0.1
  | _, _ => None
  end.

Definition transactionFee : Q := 0.006.

(** [coinValues[coinType]]: the ETB value of one unit. *)
Definition coinValues (c : coin) : Q :=
  match c with
  | nc => 2
  | sc => 2000
  | gc => 20000
  | dc => 200000
  | ska => 2000000
  end.

Definition referral_bonus : Q := 0.0005.

(** ** HTTP handlers *)

Inductive response : Type :=
| Status404 (error : string)
| Status400 (error : string)
| Status500
| UserJson (user : option User)
| SwapOk (received fee : num) (newBalance : Coins)
| BetOk (result : BetResult) (newBalance : Coins)
| WithdrawOk (received fee : num)
| ReferralOk (bonus : num).

(** [GET /api/user/:userId] *)
Definition get_user (s : state) (uid : Z) : state * response :=
  match findOne_userId (users s) uid with
  | None => (s, Status404 "User not found")
  | Some user => (s, UserJson (Some user))
  end.

(** [$inc] of [coins.<coinType>] on the first document of that user. *)
Fixpoint inc_first (us : list User) (uid : Z) (coinType : coin) (amount : num)
  : list User :=
  match us with
  | [] => []
  | u :: rest =>
      if Z.eqb (userId u) uid
      then set_coins u (coins_set (coins u) coinType
                          (coins_get (coins u) coinType + amount)%num) :: rest
      else u :: inc_first rest uid coinType amount
  end.

(** [POST /api/user/:userId/coins] *)
Definition update_coins (s : state) (uid : Z) (coinType : coin) (amount : num)
  : state * response :=
  let us := inc_first (users s) uid coinType amount in
  (set_users s us, UserJson (findOne_userId us uid)).

(** [POST /api/swap] *)
Definition swap (s : state) (uid : Z) (fromCoin toCoin : coin) (amount : num)
  : state * response :=
  let fee := (amount * Fin transactionFee)%num in
  let rate := to_number (exchangeRates fromCoin toCoin) in
  let received := ((amount - fee) * rate)%num in
  match findOne_userId (users s) uid with
  | None => (s, Status500)
  | Some user =>
      if (coins_get (coins user) fromCoin <? amount)%num
      then (s, Status400 "Insufficient balance")
      else
        let cs1 := coins_set (coins user) fromCoin
                     (coins_get (coins user) fromCoin - amount)%num in
        let cs2 := coins_set cs1 toCoin (coins_get cs1 toCoin + received)%num in
        let user' := set_coins user cs2 in
        if validate user' [PCoin fromCoin; PCoin toCoin]
        then
          let s1 := set_users s
                      (save (users s) user' [PCoin fromCoin; PCoin toCoin]) in
          let s2 := record_transaction s1
                      (mkTransaction uid "swap"
                         (SwapDetails fromCoin toCoin amount received fee)) in
          (s2, SwapOk received fee cs2)
        else (s, Status500)
  end.

(** [POST /api/bet] *)
Definition bet (s : state) (uid : Z) (coinType : coin) (amount : num)
    (avatar : string) : state * response :=
  match findOne_userId (users s) uid with
  | None => (s, Status500)
  | Some user =>
      if (coins_get (coins user) coinType <? amount)%num
      then (s, Status400 "Insufficient balance")
      else
        let '(r, s0) := Math_random s in
        let win := (Fin r >? Fin 0.5)%num in
        let '(cs, result) :=
          if win
          then
            let winAmount := (amount * Fin 1.8)%num in
            (coins_set (coins user) coinType
               (coins_get (coins user) coinType + winAmount)%num,
             mkBetResult true winAmount)
          else
            (coins_set (coins user) coinType
               (coins_get (coins user) coinType - amount)%num,
             mkBetResult false (- amount)%num) in
        let user' := set_coins user cs in
        if validate user' [PCoin coinType]
        then
          let s1 := set_users s0 (save (users s0) user' [PCoin coinType]) in
          let s2 := record_transaction s1
                      (mkTransaction uid "bet"
                         (BetDetails coinType amount avatar result)) in
          (s2, BetOk result cs)
        else (s0, Status500)
  end.

(** [POST /api/withdraw]; the response's [message] is a rendering of
    [received] and is not kept. *)
Definition withdraw (s : state) (uid : Z) (coinType : coin) (amount : num)
    (method details : string) : state * response :=
  match findOne_userId (users s) uid with
  | None => (s, Status500)
  | Some user =>
      if (coins_get (coins user) coinType <? amount)%num
      then (s, Status400 "Insufficient balance")
      else
        let etbValue := (amount * Fin (coinValues coinType))%num in
        let fee := if (etbValue >=? Fin 25)%num
                   then Fin 2
                   else (etbValue * Fin 0.08)%num in
        let received := (etbValue - fee)%num in
        let cs := coins_set (coins user) coinType
                    (coins_get (coins user) coinType - amount)%num in
        let user' := set_coins user cs in
        if validate user' [PCoin coinType]
        then
          let s1 := set_users s (save (users s) user' [PCoin coinType]) in
          let s2 := record_transaction s1
                      (mkTransaction uid "withdrawal"
                         (WithdrawalDetails coinType amount method details
                            etbValue fee received)) in
          (s2, WithdrawOk received fee)
        else (s, Status500)
  end.

(** [POST /api/referral] *)
Definition referral (s : state) (uid : Z) (code : string)
  : state * response :=
  match findOne_referralCode (users s) code with
  | None => (s, Status400 "Invalid referral code")
  | Some referrer =>
      match findOne_userId (users s) uid with
      | None => (s, Status500)
      | Some user =>
          if truthy (referredBy user)
          then (s, Status400 "Already used a referral code")
          else
            let user' := set_referredBy user (Some code) in
            let us1 := save (users s) user' [PReferredBy] in
            let r1 := set_referrals referrer (referrals referrer + Fin 1)%num in
            let r2 := set_earned r1 (earned r1 + Fin referral_bonus)%num in
            let r3 := set_coins r2
                        (coins_set (coins r2) nc
                           (coins_get (coins r2) nc + Fin referral_bonus)%num) in
            let us2 := save us1 r3 [PReferrals; PEarned; PCoin nc] in
            let s2 := record_transaction (set_users s us2)
                        (mkTransaction (userId referrer) "referral"
                           (ReferralDetails uid (Fin referral_bonus))) in
            (s2, ReferralOk (Fin referral_bonus))
      end
  end.

(** ** The Telegram [/start] command *)

(** What the bot sends to the chat. *)
Inductive bot_message : Type :=
| Welcome (chatId : Z) (code : string)
| WelcomeBack (chatId : Z) (balance_nc : num)
| PlayGame (chatId : Z)
| ErrorMessage (chatId : Z).

Definition ascii_toUpperCase (a : ascii) : ascii :=
  let n := nat_of_ascii a in
  if (andb (Nat.leb 97 n) (Nat.leb n 122))
  then ascii_of_nat (n - 32)
  else a.

Fixpoint toUpperCase (s : string) : string :=
  match s with
  | EmptyString => EmptyString
  | String a rest => String (ascii_toUpperCase a) (toUpperCase rest)
  end.

(** [n.toString(16)] for an integer [n]. *)
Definition toString16 (n : Z) : string :=
  HexadecimalString.NilZero.string_of_int (Z.to_hex_int n).

Definition new_referralCode (uid : Z) : string :=
  ("5COIN-" ++ toUpperCase (toString16 uid))%string.

Definition zero_coins : Coins :=
  mkCoins (Fin 0) (Fin 0) (Fin 0) (Fin 0) (Fin 0).

(** [bot.onText(/\/start(.+)?/, ...)].  [code] is the handler's
    [referralCode] constant: [null] when the command carries no payload,
    the trimmed payload otherwise. *)
Definition start (s : state) (chatId uid : Z)
    (uname fname lname : option string) (code : option string)
  : state * list bot_message :=
  match findOne_userId (users s) uid with
  | None =>
      let user := mkUser uid uname fname lname (new_referralCode uid)
                         None zero_coins (Fin 0) (Fin 0) in
      let '(us1, user1) :=
        match code with
        | Some rc =>
            if truthy code
            then
              match findOne_referralCode (users s) rc with
              | Some referrer =>
                  let r1 := set_referrals referrer
                              (referrals referrer + Fin 1)%num in
                  let r2 := set_earned r1
                              (earned r1 + Fin referral_bonus)%num in
                  let r3 := set_coins r2
                              (coins_set (coins r2) nc
                                 (coins_get (coins r2) nc
                                  + Fin referral_bonus)%num) in
                  (save (users s) r3 [PReferrals; PEarned; PCoin nc],
                   set_referredBy user (Some rc))
              | None => (users s, user)
              end
            else (users s, user)
        | None => (users s, user)
        end in
      (set_users s (insert us1 user1),
       [Welcome chatId (referralCode user1); PlayGame chatId])
  | Some user =>
      (s, [WelcomeBack chatId (coins_get (coins user) nc); PlayGame chatId])
  end.

(** ** Operation sequences *)

(** One request to the server. *)
Inductive request : Type :=
| ReqCoins (uid : Z) (coinType : coin) (amount : num)
| ReqSwap (uid : Z) (fromCoin toCoin : coin) (amount : num)
| ReqBet (uid : Z) (coinType : coin) (amount : num) (avatar : string)
| ReqWithdraw (uid : Z) (coinType : coin) (amount : num)
    (method details : string)
| ReqReferral (uid : Z) (code : string)
| ReqStart (chatId uid : Z) (uname fname lname : option string)
    (code : option string).

Definition handle (s : state) (r : request) : state :=
  match r with
  | ReqCoins uid c a => fst (update_coins s uid c a)
  | ReqSwap uid f t a => fst (swap s uid f t a)
  | ReqBet uid c a av => fst (bet s uid c a av)
  | ReqWithdraw uid c a m d => fst (withdraw s uid c a m d)
  | ReqReferral uid code => fst (referral s uid code)
  | ReqStart chat uid un fn ln code => fst (start s chat uid un fn ln code)
  end.

(** The states observed while the requests are served one after another,
    the initial one included. *)
Fixpoint trace (s : state) (rs : list request) : list state :=
  match rs with
  | [] => [s]
  | r :: rest => s :: trace (handle s r) rest
  end.

(** Every balance of the document is [>= 0]. *)
Definition coins_nonneg (cs : Coins) : Prop :=
  forall c, nonneg (coins_get cs c).

Definition balances_nonneg (s : state) : Prop :=
  Forall (fun u => coins_nonneg (coins u)) (users s).

(** The amount of a request is [>= 0]. *)
Definition plain_request (r : request) : Prop :=
  match r with
  | ReqCoins _ _ a | ReqSwap _ _ _ a | ReqBet _ _ a _
  | ReqWithdraw _ _ a _ _ => nonneg a
  | ReqReferral _ _ | ReqStart _ _ _ _ _ _ => True
  end.

(** A magnitude below which the handlers' sums and products of balances,
    amounts and rates stay finite on binary64. *)
Definition safe_magnitude : Q := 10 ^ 300.

(** ** The handlers' arithmetic on binary64 *)

Module Binary64.

Import Floats.
Local Open Scope float_scope.
Set Warnings "-inexact-float".

(** [amount * transactionFee] *)
Definition swap_fee (amount : float) : float := amount * 0.006.

(** [(amount - fee) * rate] *)
Definition swap_received (amount rate : float) : float :=
  (amount - swap_fee amount) * rate.

(** [balance -= amount] *)
Definition debit (balance amount : float) : float := balance - amount.

(** [amount * coinValues[coinType]] *)
Definition withdraw_etbValue (amount value : float) : float := amount * value.

(** [etbValue >= 25 ? 2 : etbValue * 0.08] *)
Definition withdraw_fee (etbValue : float) : float :=
  if PrimFloat.leb 25 etbValue then 2 else etbValue * 0.08.

(** [etbValue - fee] *)
Definition withdraw_received (etbValue : float) : float :=
  etbValue - withdraw_fee etbValue.

(** Rates of the table used below: [sc -> nc] and [nc -> sc]. *)
Definition rate_sc_nc : float := 0.1.
Definition rate_nc_sc : float := 10.

(** [coinValues.nc] and [coinValues.ska] *)
Definition value_nc : float := 2.
Definition value_ska : float := 2000000.

(** Five times the smallest positive double, about [2.5e-323]. *)
Definition tiny_amount : float := 0x5p-1074.

Definition big_balance : float := 1e16.
Definition half : float := 0.5.
Definition ska_amount : float := 0.00001.

(** The figures the SKA example expects. *)
Definition ska_fiatValue : float := 20.
Definition ska_fee : float := 1.6.
Definition ska_received : float := 18.4.

Set Warnings "+inexact-float".

End Binary64.

(** A response that is not an error status. *)
Definition is_success (r : response) : bool :=
  match r with
  | Status404 _ | Status400 _ | Status500 => false
  | _ => true
  end.

(** ** Sample data used by the closed examples *)

Definition alice : User :=
  mkUser 1 (Some "alice"%string) None None (new_referralCode 1) None
         (mkCoins (Fin 100) (Fin 0) (Fin 100) (Fin 0) (Fin 0.00001))
         (Fin 0) (Fin 0).

Definition bob : User :=
  mkUser 255 (Some "bob"%string) None None (new_referralCode 255) None
         zero_coins (Fin 0) (Fin 0).

(** Draws alternate between [0.7] (a win) and [0.2] (a loss). *)
Definition sample_draws (n : nat) : Q := if Nat.even n then 0.7 else 0.2.

Definition sample_state : state := mkState [alice; bob] [] sample_draws 0.

Definition losing_state : state := mkState [alice; bob] [] sample_draws 1.

(** A run that touches every handler with plain amounts. *)
Definition sample_requests : list request :=
  [ ReqSwap 1 nc sc (Fin 100);
    ReqBet 1 gc (Fin 50) "fox";
    ReqWithdraw 1 ska (Fin 0.00001) "telebirr" "0911";
    ReqReferral 255 "5COIN-1";
    ReqCoins 255 dc (Fin 3);
    ReqStart 7 300 None None None (Some "5COIN-FF"%string) ]%string.

(** Requests with amounts [>= 0] at the edges: a swap of a currency into
    itself, a coin update by [+Infinity], and a swap and a withdrawal of
    [+Infinity] from a balance that is then [+Infinity]. *)
Definition edge_requests : list request :=
  [ ReqSwap 1 nc nc (Fin 10);
    ReqCoins 255 sc PInf;
    ReqSwap 255 sc gc PInf;
    ReqWithdraw 255 sc PInf "telebirr" "0911";
    ReqBet 255 sc PInf "fox" ]%string.

(** No character of the string is an upper-case letter [A]..[Z]. *)
Fixpoint no_upper (s : string) : bool :=
  match s with
  | EmptyString => true
  | String a rest =>
      let n := nat_of_ascii a in
      andb (negb (andb (Nat.leb 65 n) (Nat.leb n 90))) (no_upper rest)
  end.

(** What identifies an account: its user id and its own referral code. *)
Definition identity (u : User) : Z * string := (userId u, referralCode u).

(** The sample state after alice has used bob's code. *)
Definition referred_state : state :=
  fst (referral sample_state 1 "5COIN-FF").

Definition referred_alice : User :=
  set_referredBy alice (Some "5COIN-FF"%string).

(** The user id a request names. *)
Definition request_user (r : request) : Z :=
  match r with
  | ReqCoins uid _ _ | ReqSwap uid _ _ _ | ReqBet uid _ _ _
  | ReqWithdraw uid _ _ _ _ | ReqReferral uid _
  | ReqStart _ uid _ _ _ _ => uid
  end.

(** The referral code a request carries, if any. *)
Definition request_code (r : request) : option string :=
  match r with
  | ReqReferral _ code => Some code
  | ReqStart _ _ _ _ _ code => code
  | ReqCoins _ _ _ | ReqSwap _ _ _ _ | ReqBet _ _ _ _
  | ReqWithdraw _ _ _ _ _ => None
  end.

(** ** Numbers: basic facts *)

Lemma num_ltb_Fin (a b : Q) : (Fin a <? Fin b)%num = true <-> a < b.
Proof.
  simpl. rewrite negb_true_iff. split; intros H.
  - destruct (Qlt_le_dec a b) as [Hlt | Hle]; [exact Hlt |].
    apply Qle_bool_iff in Hle. congruence.
  - destruct (Qle_bool b a) eqn:E; [| reflexivity].
    apply Qle_bool_iff in E. lra.
Qed.

Lemma num_ltb_Fin_false (a b : Q) : (Fin a <? Fin b)%num = false <-> b <= a.
Proof.
  simpl. rewrite negb_false_iff. apply Qle_bool_iff.
Qed.

Lemma num_eq_refl (x : num) : x =n= x.
Proof. destruct x; simpl; [reflexivity | exact I ..]. Qed.

Lemma nonneg_not_NaN (x : num) : nonneg x -> num_isNaN x = false.
Proof. destruct x; simpl; intros H; try contradiction; reflexivity. Qed.

Lemma nonneg_add (x y : num) : nonneg x -> nonneg y -> nonneg (x + y)%num.
Proof.
  destruct x, y; simpl; intros Hx Hy; try contradiction; try exact I. lra.
Qed.

Lemma nonneg_sub (b a : num) :
  nonneg b -> nonneg a -> (b <? a)%num = false ->
  num_isNaN (b - a)%num = false -> nonneg (b - a)%num.
Proof.
  destruct b as [b | | |], a as [a | | |]; simpl;
    intros Hb Ha Hlt Hnan; try contradiction; try discriminate; try exact I.
  apply negb_false_iff, Qle_bool_iff in Hlt. lra.
Qed.

Lemma Qsign_mul_positive (k : Q) (pos neg : num) :
  0 < k -> Qsign_mul k pos neg = pos.
Proof.
  intros Hk. unfold Qsign_mul.
  apply Qgt_alt in Hk. rewrite Hk. reflexivity.
Qed.

Lemma nonneg_scale (a : num) (k : Q) :
  nonneg a -> 0 < k -> nonneg (a * Fin k)%num.
Proof.
  destruct a as [a | | |]; simpl; intros Ha Hk; try contradiction.
  - nra.
  - rewrite Qsign_mul_positive by exact Hk. exact I.
Qed.

Lemma num_add_not_NaN (x y : num) :
  num_isNaN (x + y)%num = false ->
  num_isNaN x = false /\ num_isNaN y = false.
Proof. destruct x, y; simpl; intros H; try discriminate; auto. Qed.

Lemma num_mul_not_NaN (x y : num) :
  num_isNaN (x * y)%num = false ->
  num_isNaN x = false /\ num_isNaN y = false.
Proof. destruct x, y; simpl; intros H; try discriminate; auto. Qed.

(** What a swap of an amount [>= 0] pays out is [>= 0], unless it is
    [NaN]. *)
Lemma nonneg_received (a : num) (r : Q) :
  nonneg a -> 0 < r ->
  num_isNaN ((a - a * Fin transactionFee) * Fin r)%num = false ->
  nonneg ((a - a * Fin transactionFee) * Fin r)%num.
Proof.
  destruct a as [a | | |]; intros Ha Hr Hnan; try contradiction.
  - simpl in *. unfold transactionFee.
    assert (Har : 0 <= a * r) by (apply Qmult_le_0_compat; lra).
    lra.
  - exfalso. apply num_mul_not_NaN in Hnan. destruct Hnan as [Hnan _].
    simpl in Hnan. discriminate.
Qed.

(** ** Balances: reading after writing *)

Lemma coin_eqb_eq (a b : coin) : coin_eqb a b = true <-> a = b.
Proof. destruct a, b; simpl; split; congruence. Qed.

Lemma coin_eqb_refl (a : coin) : coin_eqb a a = true.
Proof. destruct a; reflexivity. Qed.

Lemma coin_eqb_neq (a b : coin) : a <> b -> coin_eqb a b = false.
Proof.
  intros H. destruct (coin_eqb a b) eqn:E; [| reflexivity].
  apply coin_eqb_eq in E. contradiction.
Qed.

Lemma coins_get_set (cs : Coins) (c c' : coin) (v : num) :
  coins_get (coins_set cs c v) c' =
  if coin_eqb c c' then v else coins_get cs c'.
Proof. destruct c, c'; reflexivity. Qed.

Lemma coins_get_set_same (cs : Coins) (c : coin) (v : num) :
  coins_get (coins_set cs c v) c = v.
Proof. rewrite coins_get_set, coin_eqb_refl. reflexivity. Qed.

Lemma coins_get_set_other (cs : Coins) (c c' : coin) (v : num) :
  c <> c' -> coins_get (coins_set cs c v) c' = coins_get cs c'.
Proof. intros H. rewrite coins_get_set, coin_eqb_neq; auto. Qed.

Lemma coins_set_get (cs : Coins) (c : coin) :
  coins_set cs c (coins_get cs c) = cs.
Proof. destruct cs, c; reflexivity. Qed.

Lemma coins_set_set (cs : Coins) (c : coin) (v w : num) :
  coins_set (coins_set cs c v) c w = coins_set cs c w.
Proof. destruct c; reflexivity. Qed.

Lemma coins_nonneg_set (cs : Coins) (c : coin) (v : num) :
  coins_nonneg cs -> nonneg v -> coins_nonneg (coins_set cs c v).
Proof.
  intros Hcs Hv c'. rewrite coins_get_set.
  destruct (coin_eqb c c'); [exact Hv | apply Hcs].
Qed.

(** ** The store: reading after saving *)

Lemma write_path_userId (doc stored : User) (p : path) :
  userId (write_path doc stored p) = userId stored.
Proof. destruct p; reflexivity. Qed.

Lemma fold_write_path_userId (doc : User) (ps : list path) (stored : User) :
  userId (fold_left (write_path doc) ps stored) = userId stored.
Proof.
  revert stored. induction ps as [| p ps IH]; intros stored; simpl.
  - reflexivity.
  - rewrite IH. apply write_path_userId.
Qed.

Lemma findOne_userId_In (us : list User) (uid : Z) (u : User) :
  findOne_userId us uid = Some u -> In u us /\ userId u = uid.
Proof.
  unfold findOne_userId. intros H. apply find_some in H.
  destruct H as [Hin Heq]. apply Z.eqb_eq in Heq. auto.
Qed.

Lemma findOne_referralCode_In (us : list User) (code : string) (u : User) :
  findOne_referralCode us code = Some u -> In u us /\ referralCode u = code.
Proof.
  unfold findOne_referralCode. intros H. apply find_some in H.
  destruct H as [Hin Heq]. apply String.eqb_eq in Heq. auto.
Qed.

(** After [doc.save()], a lookup by [userId] returns the document that was
    found before, with the assigned paths of [doc] written into it when it
    is [doc]'s user. *)
Lemma findOne_userId_save (us : list User) (doc : User) (ps : list path)
    (uid : Z) :
  findOne_userId (save us doc ps) uid =
  option_map (fun stored =>
                if Z.eqb (userId stored) (userId doc)
                then fold_left (write_path doc) ps stored
                else stored)
             (findOne_userId us uid).
Proof.
  unfold findOne_userId, save.
  induction us as [| u us IH]; simpl; [reflexivity |].
  destruct (Z.eqb (userId u) (userId doc)) eqn:Edoc.
  - rewrite fold_write_path_userId.
    destruct (Z.eqb (userId u) uid) eqn:Euid; simpl.
    + rewrite Edoc. reflexivity.
    + exact IH.
  - destruct (Z.eqb (userId u) uid) eqn:Euid; simpl.
    + rewrite Edoc. reflexivity.
    + exact IH.
Qed.

Lemma findOne_userId_insert (us : list User) (doc : User) (uid : Z) :
  findOne_userId us uid = None ->
  findOne_userId (insert us doc) uid =
  if Z.eqb (userId doc) uid then Some doc else None.
Proof.
  unfold findOne_userId, insert.
  induction us as [| u us IH]; simpl; intros H.
  - reflexivity.
  - destruct (Z.eqb (userId u) uid); [discriminate | auto].
Qed.

(** ** Non-negative balances are preserved by plain requests *)

Lemma write_path_nonneg (doc stored : User) (p : path) :
  coins_nonneg (coins stored) ->
  (forall c, p = PCoin c -> nonneg (coins_get (coins doc) c)) ->
  coins_nonneg (coins (write_path doc stored p)).
Proof.
  intros Hst Hdoc. destruct p; simpl; try exact Hst.
  apply coins_nonneg_set; auto.
Qed.

Lemma fold_write_path_nonneg (doc : User) (ps : list path) (stored : User) :
  coins_nonneg (coins stored) ->
  (forall c, In (PCoin c) ps -> nonneg (coins_get (coins doc) c)) ->
  coins_nonneg (coins (fold_left (write_path doc) ps stored)).
Proof.
  revert stored. induction ps as [| p ps IH]; intros stored Hst Hdoc; simpl.
  - exact Hst.
  - apply IH.
    + apply write_path_nonneg; [exact Hst |].
      intros c ->. apply Hdoc. left. reflexivity.
    + intros c Hin. apply Hdoc. right. exact Hin.
Qed.

Lemma save_nonneg (us : list User) (doc : User) (ps : list path) :
  Forall (fun u => coins_nonneg (coins u)) us ->
  (forall c, In (PCoin c) ps -> nonneg (coins_get (coins doc) c)) ->
  Forall (fun u => coins_nonneg (coins u)) (save us doc ps).
Proof.
  intros Hus Hdoc. unfold save. apply Forall_map.
  eapply Forall_impl; [| exact Hus].
  intros u Hu. simpl.
  destruct (Z.eqb (userId u) (userId doc)); [| exact Hu].
  apply fold_write_path_nonneg; assumption.
Qed.

Lemma found_nonneg (s : state) (uid : Z) (u : User) :
  balances_nonneg s -> findOne_userId (users s) uid = Some u ->
  coins_nonneg (coins u).
Proof.
  intros Hs Hf. apply findOne_userId_In in Hf. destruct Hf as [Hin _].
  unfold balances_nonneg in Hs. rewrite Forall_forall in Hs.
  apply (Hs u Hin).
Qed.

Lemma exchangeRates_positive (f t : coin) :
  f <> t -> exists r, exchangeRates f t = Some r /\ 0 < r.
Proof.
  intros H. destruct f, t; try congruence; simpl;
    eexists; (split; [reflexivity | lra]).
Qed.

Lemma update_coins_nonneg (s : state) (uid : Z) (c : coin) (a : num) :
  balances_nonneg s -> nonneg a ->
  balances_nonneg (fst (update_coins s uid c a)).
Proof.
  unfold balances_nonneg, update_coins. simpl. intros Hs Ha.
  induction (users s) as [| u us IH]; simpl; [constructor |].
  inversion Hs as [| ? ? Hu Hus]; subst.
  destruct (Z.eqb (userId u) uid).
  - constructor; [| exact Hus]. simpl.
    apply coins_nonneg_set; [exact Hu |].
    apply nonneg_add; [apply Hu | exact Ha].
  - constructor; [exact Hu | apply IH; exact Hus].
Qed.

Lemma validate_coin (doc : User) (c : coin) (ps : list path) :
  validate doc ps = true -> In (PCoin c) ps ->
  num_isNaN (coins_get (coins doc) c) = false.
Proof.
  unfold validate. intros Hv Hin.
  rewrite forallb_forall in Hv. specialize (Hv _ Hin). simpl in Hv.
  apply negb_true_iff in Hv. exact Hv.
Qed.

Lemma swap_nonneg (s : state) (uid : Z) (f t : coin) (a : num) :
  balances_nonneg s -> nonneg a ->
  balances_nonneg (fst (swap s uid f t a)).
Proof.
  intros Hs Ha. unfold swap.
  destruct (findOne_userId (users s) uid) as [user |] eqn:Hf; [| exact Hs].
  pose proof (found_nonneg _ _ _ Hs Hf) as Hu.
  destruct (coins_get (coins user) f <? a)%num eqn:Elt; [exact Hs |].
  match goal with
  | |- context [validate ?d ?ps] => destruct (validate d ps) eqn:Hv
  end; [| exact Hs].
  pose proof (validate_coin _ f _ Hv (or_introl eq_refl)) as Nf.
  pose proof (validate_coin _ t _ Hv (or_intror (or_introl eq_refl))) as Nt.
  simpl in Nf, Nt.
  unfold balances_nonneg. simpl. apply save_nonneg; [exact Hs |].
  intros c Hin. simpl.
  destruct (coin_eqb f t) eqn:Eft.
  - exfalso. apply coin_eqb_eq in Eft. subst t.
    rewrite coins_get_set_same in Nt.
    assert (Hrate : exchangeRates f f = None) by (destruct f; reflexivity).
    rewrite Hrate in Nt. simpl to_number in Nt.
    apply num_add_not_NaN in Nt. destruct Nt as [_ Nt].
    apply num_mul_not_NaN in Nt. destruct Nt as [_ Nt]. discriminate.
  - assert (Hft : f <> t).
    { intros E. subst t. rewrite coin_eqb_refl in Eft. discriminate. }
    destruct (exchangeRates_positive f t Hft) as [r [Er Hr]].
    rewrite Er in *. simpl to_number in *.
    rewrite coins_get_set_same in Nt.
    rewrite (coins_get_set_other _ f t) in Nt by exact Hft.
    rewrite (coins_get_set_other _ t f) in Nf by congruence.
    rewrite coins_get_set_same in Nf.
    rewrite !coins_get_set. rewrite Eft.
    destruct (coin_eqb t c).
    + apply nonneg_add; [apply Hu |].
      apply num_add_not_NaN in Nt. destruct Nt as [_ Nt].
      apply nonneg_received; assumption.
    + destruct (coin_eqb f c); [| apply Hu].
      apply nonneg_sub; [apply Hu | exact Ha | exact Elt | exact Nf].
Qed.

Lemma bet_nonneg (s : state) (uid : Z) (c : coin) (a : num) (av : string) :
  balances_nonneg s -> nonneg a ->
  balances_nonneg (fst (bet s uid c a av)).
Proof.
  intros Hs Ha. unfold bet.
  destruct (findOne_userId (users s) uid) as [user |] eqn:Hf; [| exact Hs].
  pose proof (found_nonneg _ _ _ Hs Hf) as Hu.
  destruct (coins_get (coins user) c <? a)%num eqn:Elt; [exact Hs |].
  unfold Math_random.
  destruct (Fin (random_source s (random_used s)) >? Fin 0.5)%num.
  - match goal with
    | |- context [validate ?d ?ps] => destruct (validate d ps) eqn:Hv
    end; [| exact Hs].
    unfold balances_nonneg. simpl. apply save_nonneg; [exact Hs |].
    intros c' Hin. simpl. rewrite coins_get_set.
    destruct (coin_eqb c c'); [| apply Hu].
    apply nonneg_add; [apply Hu |]. apply nonneg_scale; [exact Ha | lra].
  - match goal with
    | |- context [validate ?d ?ps] => destruct (validate d ps) eqn:Hv
    end; [| exact Hs].
    pose proof (validate_coin _ c _ Hv (or_introl eq_refl)) as Nc.
    simpl in Nc. rewrite coins_get_set_same in Nc.
    unfold balances_nonneg. simpl. apply save_nonneg; [exact Hs |].
    intros c' Hin. simpl. rewrite coins_get_set.
    destruct (coin_eqb c c'); [| apply Hu].
    apply nonneg_sub; [apply Hu | exact Ha | exact Elt | exact Nc].
Qed.

Lemma withdraw_nonneg (s : state) (uid : Z) (c : coin) (a : num)
    (m d : string) :
  balances_nonneg s -> nonneg a ->
  balances_nonneg (fst (withdraw s uid c a m d)).
Proof.
  intros Hs Ha. unfold withdraw.
  destruct (findOne_userId (users s) uid) as [user |] eqn:Hf; [| exact Hs].
  pose proof (found_nonneg _ _ _ Hs Hf) as Hu.
  destruct (coins_get (coins user) c <? a)%num eqn:Elt; [exact Hs |].
  match goal with
  | |- context [validate ?d ?ps] => destruct (validate d ps) eqn:Hv
  end; [| exact Hs].
  pose proof (validate_coin _ c _ Hv (or_introl eq_refl)) as Nc.
  simpl in Nc. rewrite coins_get_set_same in Nc.
  unfold balances_nonneg. simpl. apply save_nonneg; [exact Hs |].
  intros c' Hin. simpl. rewrite coins_get_set.
  destruct (coin_eqb c c'); [| apply Hu].
  apply nonneg_sub; [apply Hu | exact Ha | exact Elt | exact Nc].
Qed.

Lemma bonus_nonneg (referrer : User) (c : coin) :
  coins_nonneg (coins referrer) ->
  nonneg
    (coins_get
       (coins_set (coins referrer) nc
          (coins_get (coins referrer) nc + Fin referral_bonus)%num) c).
Proof.
  intros Hr. rewrite coins_get_set.
  destruct (coin_eqb nc c); [| apply Hr].
  apply nonneg_add; [apply Hr |]. simpl. unfold referral_bonus. lra.
Qed.

Lemma referral_nonneg (s : state) (uid : Z) (code : string) :
  balances_nonneg s -> balances_nonneg (fst (referral s uid code)).
Proof.
  intros Hs. unfold referral.
  destruct (findOne_referralCode (users s) code) as [referrer |] eqn:Hc;
    [| exact Hs].
  destruct (findOne_userId (users s) uid) as [user |] eqn:Hf; [| exact Hs].
  destruct (truthy (referredBy user)); [exact Hs |].
  assert (Hr : coins_nonneg (coins referrer)).
  { apply findOne_referralCode_In in Hc. destruct Hc as [Hin _].
    unfold balances_nonneg in Hs. rewrite Forall_forall in Hs.
    apply (Hs _ Hin). }
  unfold balances_nonneg. simpl.
  apply save_nonneg.
  - apply save_nonneg; [exact Hs |]. intros c [Hin | []]. discriminate.
  - intros c _. simpl. apply bonus_nonneg. exact Hr.
Qed.

Lemma start_nonneg (s : state) (chat uid : Z) (un fn ln code : option string) :
  balances_nonneg s ->
  balances_nonneg (fst (start s chat uid un fn ln code)).
Proof.
  intros Hs. unfold start.
  destruct (findOne_userId (users s) uid) as [user |]; [exact Hs |].
  assert (Hz : coins_nonneg zero_coins).
  { intros c. destruct c; simpl; lra. }
  assert (Hplain : forall u, coins u = zero_coins ->
            Forall (fun u => coins_nonneg (coins u)) (insert (users s) u)).
  { intros u Eu. unfold insert. apply Forall_app. split; [exact Hs |].
    constructor; [rewrite Eu; exact Hz | constructor]. }
  destruct code as [rc |]; [| apply Hplain; reflexivity].
  destruct (truthy (Some rc)); [| apply Hplain; reflexivity].
  destruct (findOne_referralCode (users s) rc) as [referrer |] eqn:Hc;
    [| apply Hplain; reflexivity].
  assert (Hr : coins_nonneg (coins referrer)).
  { apply findOne_referralCode_In in Hc. destruct Hc as [Hin _].
    unfold balances_nonneg in Hs. rewrite Forall_forall in Hs.
    apply (Hs _ Hin). }
  unfold balances_nonneg. simpl. unfold insert. apply Forall_app. split.
  - apply save_nonneg; [exact Hs |].
    intros c _. simpl. apply bonus_nonneg. exact Hr.
  - constructor; [exact Hz | constructor].
Qed.

Lemma handle_nonneg (s : state) (r : request) :
  balances_nonneg s -> plain_request r -> balances_nonneg (handle s r).
Proof.
  intros Hs Hr. destruct r; simpl in *.
  - apply update_coins_nonneg; assumption.
  - apply swap_nonneg; assumption.
  - apply bet_nonneg; assumption.
  - apply withdraw_nonneg; assumption.
  - apply referral_nonneg; assumption.
  - apply start_nonneg; assumption.
Qed.

Lemma sample_state_nonneg : balances_nonneg sample_state.
Proof.
  unfold balances_nonneg. simpl.
  repeat constructor; intros c; destruct c; simpl; lra.
Defined.

Lemma sample_requests_plain : Forall plain_request sample_requests.
Proof.
  unfold sample_requests.
  repeat constructor; simpl; try lra; discriminate.
Defined.

(** ** Claims about balances *)


Lemma edge_requests_plain : Forall plain_request edge_requests.
Proof.
  unfold edge_requests. repeat constructor; simpl; lra.
Defined.



(** A bet of a finite amount on a finite balance that passes the balance
    check consumes one draw: a draw above [0.5] adds [amount * 1.8] to the
    balance of the staked currency, any other draw subtracts [amount] from
    it. *)
Lemma bet_passes (s : state) (uid : Z) (user : User) (c : coin)
    (a b : Q) (avatar : string) :
  findOne_userId (users s) uid = Some user ->
  coins_get (coins user) c = Fin b ->
  (coins_get (coins user) c <? Fin a)%num = false ->
  exists s' res cs,
    bet s uid c (Fin a) avatar = (s', BetOk res cs) /\
    random_used s' = S (random_used s) /\
    (0.5 < random_source s (random_used s) ->
     win res = true /\
     coins_get cs c = (coins_get (coins user) c + Fin a * Fin 1.8)%num) /\
    (random_source s (random_used s) <= 0.5 ->
     win res = false /\
     coins_get cs c = (coins_get (coins user) c - Fin a)%num).
Proof.
  intros Hf Hb Hlt. unfold bet, Math_random. rewrite Hf, Hlt.
  unfold num_gtb, validate. simpl forallb.
  destruct (Fin 0.5 <? Fin (random_source s (random_used s)))%num eqn:E.
  - apply num_ltb_Fin in E.
    simpl coins. rewrite coins_get_set_same, Hb. simpl.
    do 3 eexists. split; [reflexivity |]. split; [reflexivity |].
    split; intros H; [| lra].
    split; [reflexivity | apply coins_get_set_same].
  - apply num_ltb_Fin_false in E.
    simpl coins. rewrite coins_get_set_same, Hb. simpl.
    do 3 eexists. split; [reflexivity |]. split; [reflexivity |].
    split; intros H; [lra |].
    split; [reflexivity | apply coins_get_set_same].
Qed.

(** C2 (the code at the failing input).  A winning bet of 50 GC on a balance
    of 100 GC credits [50 * 1.8 = 90] and debits nothing: the balance becomes
    190, not 140.  A losing bet of 50 leaves 50. *)
Theorem bet_win_keeps_stake :
  match snd (bet sample_state 1 gc (Fin 50) "fox") with
  | BetOk res cs =>
      win res = true /\ result_amount res =n= Fin 90 /\
      coins_get cs gc =n= Fin 190 /\ ~ coins_get cs gc =n= Fin 140
  | _ => False
  end /\
  match snd (bet losing_state 1 gc (Fin 50) "fox") with
  | BetOk res cs =>
      win res = false /\ result_amount res =n= Fin (-50) /\
      coins_get cs gc =n= Fin 50
  | _ => False
  end.
Proof.
  vm_compute. repeat split; discriminate.
Qed.

(** C9.  When the stake exceeds the user's balance of the staked currency,
    [/api/bet] answers 400 "Insufficient balance" and returns the state it
    was given: no balance, no transaction and no random draw is touched. *)
Theorem bet_rejects_before_draw (s : state) (uid : Z) (user : User)
    (c : coin) (amount : num) (avatar : string) :
  findOne_userId (users s) uid = Some user ->
  (coins_get (coins user) c <? amount)%num = true ->
  bet s uid c amount avatar = (s, Status400 "Insufficient balance") /\
  random_used (fst (bet s uid c amount avatar)) = random_used s /\
  users (fst (bet s uid c amount avatar)) = users s.
Proof.
  intros Hf Hlt.
  assert (E : bet s uid c amount avatar
              = (s, Status400 "Insufficient balance")).
  { unfold bet. rewrite Hf, Hlt. reflexivity. }
  rewrite E. auto.
Qed.

Lemma bet_rejects_before_draw_witness :
  findOne_userId (users sample_state) 1 = Some alice /\
  (coins_get (coins alice) gc <? Fin 500)%num = true /\
  bet sample_state 1 gc (Fin 500) "fox"
  = (sample_state, Status400 "Insufficient balance").
Proof.
  split; [reflexivity |]. split; [reflexivity |].
  apply (bet_rejects_before_draw sample_state 1 alice gc (Fin 500) "fox");
    reflexivity.
Defined.

(** ** Claims about referrals and onboarding *)

(** C10.  On [/start] by a user who has no account yet, a referral code that
    no account owns is ignored: afterwards the users collection is the old
    one followed by the new account, which has [referredBy] unset and zero
    balances and is what a lookup of the user id finds; no transaction is
    recorded and no draw consumed; and the chat gets the welcome and the
    game link, no error message.  The same code sent to [/api/referral] is
    answered with 400 "Invalid referral code". *)
Theorem start_ignores_unknown_code (s : state) (chat uid acting : Z)
    (un fn ln : option string) (rc : string) :
  findOne_userId (users s) uid = None ->
  findOne_referralCode (users s) rc = None ->
  users (fst (start s chat uid un fn ln (Some rc)))
  = users s ++ [mkUser uid un fn ln (new_referralCode uid) None
                       zero_coins (Fin 0) (Fin 0)] /\
  findOne_userId (users (fst (start s chat uid un fn ln (Some rc)))) uid
  = Some (mkUser uid un fn ln (new_referralCode uid) None
                 zero_coins (Fin 0) (Fin 0)) /\
  transactions (fst (start s chat uid un fn ln (Some rc))) = transactions s /\
  random_used (fst (start s chat uid un fn ln (Some rc))) = random_used s /\
  snd (start s chat uid un fn ln (Some rc))
  = [Welcome chat (new_referralCode uid); PlayGame chat] /\
  referral s acting rc = (s, Status400 "Invalid referral code").
Proof.
  intros Hu Hc.
  assert (E : start s chat uid un fn ln (Some rc)
              = (set_users s
                   (insert (users s)
                      (mkUser uid un fn ln (new_referralCode uid) None
                              zero_coins (Fin 0) (Fin 0))),
                 [Welcome chat (new_referralCode uid); PlayGame chat])).
  { unfold start. rewrite Hu, Hc. destruct (truthy (Some rc)); reflexivity. }
  rewrite E. simpl.
  split; [reflexivity |]. split.
  - rewrite (findOne_userId_insert _ _ _ Hu). simpl.
    rewrite Z.eqb_refl. reflexivity.
  - split; [reflexivity |]. split; [reflexivity |]. split; [reflexivity |].
    unfold referral. rewrite Hc. reflexivity.
Qed.

Lemma start_ignores_unknown_code_witness :
  findOne_userId (users sample_state) 300 = None /\
  findOne_referralCode (users sample_state) "5COIN-XYZ" = None /\
  users (fst (start sample_state 7 300 (Some "carol"%string) None None
                    (Some "5COIN-XYZ"%string)))
  = [alice; bob;
     mkUser 300 (Some "carol"%string) None None "5COIN-12C" None
            zero_coins (Fin 0) (Fin 0)] /\
  findOne_userId
    (users (fst (start sample_state 7 300 (Some "carol"%string) None None
                       (Some "5COIN-XYZ"%string)))) 300
  = Some (mkUser 300 (Some "carol"%string) None None "5COIN-12C" None
                 zero_coins (Fin 0) (Fin 0)) /\
  snd (start sample_state 7 300 (Some "carol"%string) None None
             (Some "5COIN-XYZ"%string))
  = [Welcome 7 "5COIN-12C"; PlayGame 7] /\
  referral sample_state 300 "5COIN-XYZ"
  = (sample_state, Status400 "Invalid referral code").
Proof.
  split; [reflexivity |]. split; [reflexivity |].
  destruct (start_ignores_unknown_code sample_state 7 300 300
              (Some "carol"%string) None None "5COIN-XYZ" eq_refl eq_refl)
    as [Husers [Hfound [_ [_ [Hmsgs Href]]]]].
  split; [exact Husers |]. split; [exact Hfound |].
  split; [exact Hmsgs | exact Href].
Defined.

(** C6 (the code at the failing input).  [/start] never appends to the
    transaction log.  When a new user starts with bob's code, bob's
    document receives the bonus (NC, [earned], [referrals]) and the log
    stays empty, whereas [/api/referral] with the same code records one
    "referral" transaction for the same payout. *)
Theorem start_bonus_without_transaction :
  (forall s chat uid un fn ln code,
      transactions (fst (start s chat uid un fn ln code)) = transactions s) /\
  (let s' := fst (start sample_state 7 300 None None None
                        (Some "5COIN-FF"%string)) in
   match findOne_userId (users s') 255, findOne_userId (users s') 300 with
   | Some referrer, Some user =>
       coins_get (coins referrer) nc =n= Fin 0.0005 /\
       earned referrer =n= Fin 0.0005 /\
       referrals referrer =n= Fin 1 /\
       referredBy user = Some "5COIN-FF"%string
   | _, _ => False
   end /\
   transactions s' = []) /\
  transactions (fst (referral sample_state 1 "5COIN-FF"))
  = [mkTransaction 255 "referral" (ReferralDetails 1 (Fin referral_bonus))].
Proof.
  split; [| split].
  - intros s chat uid un fn ln code. unfold start.
    destruct (findOne_userId (users s) uid); [reflexivity |].
    destruct code as [rc |]; [| reflexivity].
    destruct (truthy (Some rc)); [| reflexivity].
    destruct (findOne_referralCode (users s) rc); reflexivity.
  - vm_compute. repeat split.
  - reflexivity.
Qed.




(** ** Claims about swap, bet and withdraw *)

Lemma num_mul_NaN_r (x : num) : (x * NaN)%num = NaN.
Proof. destruct x; reflexivity. Qed.

Lemma num_add_NaN_r (x : num) : (x + NaN)%num = NaN.
Proof. destruct x; reflexivity. Qed.

Lemma num_sub_NaN_r (x : num) : (x - NaN)%num = NaN.
Proof. destruct x; reflexivity. Qed.

Lemma num_ltb_NaN_r (x : num) : (x <? NaN)%num = false.
Proof. destruct x; reflexivity. Qed.

Lemma exchangeRates_reciprocal (f t : coin) :
  f <> t ->
  exists r r', exchangeRates f t = Some r /\ exchangeRates t f = Some r' /\
               r * r' == 1.
Proof.
  intros H. destruct f, t; try congruence; simpl;
    do 2 eexists; (split; [reflexivity | split; [reflexivity | reflexivity]]).
Qed.

(** Writing back the two balances a swap assigned stores exactly the
    in-memory balances. *)
Lemma coins_write_back (cs : Coins) (f t : coin) (x y : num) :
  let cs2 := coins_set (coins_set cs f x) t y in
  coins_set (coins_set cs f (coins_get cs2 f)) t (coins_get cs2 t) = cs2.
Proof. destruct cs, f, t; reflexivity. Qed.

(** A swap that passes the balance check and whose save goes through: its
    response, the document a later lookup finds, and the transaction it
    records. *)
Lemma swap_passes (s : state) (uid : Z) (user : User) (f t : coin)
    (amount : num) :
  findOne_userId (users s) uid = Some user ->
  (coins_get (coins user) f <? amount)%num = false ->
  let fee := (amount * Fin transactionFee)%num in
  let received := ((amount - fee) * to_number (exchangeRates f t))%num in
  let cs1 := coins_set (coins user) f
               (coins_get (coins user) f - amount)%num in
  let cs2 := coins_set cs1 t (coins_get cs1 t + received)%num in
  validate (set_coins user cs2) [PCoin f; PCoin t] = true ->
  swap s uid f t amount
  = (record_transaction
       (set_users s (save (users s) (set_coins user cs2) [PCoin f; PCoin t]))
       (mkTransaction uid "swap" (SwapDetails f t amount received fee)),
     SwapOk received fee cs2) /\
  findOne_userId (users (fst (swap s uid f t amount))) uid
  = Some (set_coins user cs2).
Proof.
  intros Hf Hlt fee received cs1 cs2 Hv. unfold swap. rewrite Hf, Hlt.
  fold fee. fold received. fold cs1. fold cs2. rewrite Hv.
  split; [reflexivity |].
  simpl. rewrite findOne_userId_save, Hf. simpl.
  rewrite Z.eqb_refl. simpl. unfold set_coins. simpl.
  f_equal. f_equal.
  apply (coins_write_back (coins user) f t).
Qed.

(** A swap that passes the balance check but has assigned [NaN] to a
    balance: the save rejects and nothing is written. *)
Lemma swap_save_rejected (s : state) (uid : Z) (user : User) (f t : coin)
    (amount : num) :
  findOne_userId (users s) uid = Some user ->
  (coins_get (coins user) f <? amount)%num = false ->
  let fee := (amount * Fin transactionFee)%num in
  let received := ((amount - fee) * to_number (exchangeRates f t))%num in
  let cs1 := coins_set (coins user) f
               (coins_get (coins user) f - amount)%num in
  let cs2 := coins_set cs1 t (coins_get cs1 t + received)%num in
  validate (set_coins user cs2) [PCoin f; PCoin t] = false ->
  swap s uid f t amount = (s, Status500).
Proof.
  intros Hf Hlt fee received cs1 cs2 Hv. unfold swap. rewrite Hf, Hlt.
  fold fee. fold received. fold cs1. fold cs2. rewrite Hv. reflexivity.
Qed.

(** Between two different currencies with finite balances, a finite amount
    never yields [NaN]. *)
Lemma swap_finite_valid (user : User) (f t : coin) (amt a b : Q) :
  f <> t ->
  coins_get (coins user) f = Fin a ->
  coins_get (coins user) t = Fin b ->
  exists rate,
    exchangeRates f t = Some rate /\
    validate
      (set_coins user
         (coins_set
            (coins_set (coins user) f (coins_get (coins user) f - Fin amt)%num)
            t
            (coins_get
               (coins_set (coins user) f
                  (coins_get (coins user) f - Fin amt)%num) t
             + (Fin amt - Fin amt * Fin transactionFee)
               * to_number (exchangeRates f t))%num))
      [PCoin f; PCoin t] = true.
Proof.
  intros Hft Ha Hb.
  destruct (exchangeRates_positive f t Hft) as [rate [Er _]].
  exists rate. split; [exact Er |].
  unfold validate. simpl forallb. simpl coins.
  rewrite coins_get_set_same.
  rewrite (coins_get_set_other _ t f) by congruence.
  rewrite coins_get_set_same.
  rewrite (coins_get_set_other _ f t) by exact Hft.
  rewrite Ha, Hb, Er. reflexivity.
Qed.

(** C3 (amended).  [/api/swap], [/api/bet] and [/api/withdraw] have no check
    of their own on the amount; there is no InvalidAmount.  For an existing
    user: (1) when the balance of the debited currency is below the amount
    (as it is for [+Infinity] on a finite balance), each of them answers 400
    "Insufficient balance" and returns the state unchanged; (2) a finite
    amount of any sign that is not above a finite balance is accepted: the
    bet, the withdrawal and the swap into a different currency with a finite
    balance answer with success; (3) an amount that is not a number passes
    the balance check, the save is then refused and 500 is answered: swap
    and withdraw return the state unchanged, bet has only consumed its
    draw. *)
Theorem amount_checked_against_balance_only (s : state) (uid : Z)
    (user : User) (c : coin) (amount : num) :
  findOne_userId (users s) uid = Some user ->
  ((coins_get (coins user) c <? amount)%num = true ->
   (forall t, swap s uid c t amount
              = (s, Status400 "Insufficient balance")) /\
   (forall avatar, bet s uid c amount avatar
                   = (s, Status400 "Insufficient balance")) /\
   (forall method details, withdraw s uid c amount method details
                           = (s, Status400 "Insufficient balance"))) /\
  (forall a b : Q,
      amount = Fin a -> coins_get (coins user) c = Fin b -> a <= b ->
      (forall t bt, t <> c -> coins_get (coins user) t = Fin bt ->
                    is_success (snd (swap s uid c t amount)) = true) /\
      (forall avatar, is_success (snd (bet s uid c amount avatar)) = true) /\
      (forall method details,
          is_success (snd (withdraw s uid c amount method details)) = true)) /\
  (amount = NaN ->
   (forall t, swap s uid c t amount = (s, Status500)) /\
   (forall avatar,
       snd (bet s uid c amount avatar) = Status500 /\
       users (fst (bet s uid c amount avatar)) = users s /\
       transactions (fst (bet s uid c amount avatar)) = transactions s /\
       random_used (fst (bet s uid c amount avatar)) = S (random_used s)) /\
   (forall method details,
       withdraw s uid c amount method details = (s, Status500))).
Proof.
  intros Hf. split; [| split].
  - intros Hlt. split; [| split]; intros.
    + unfold swap. rewrite Hf, Hlt. reflexivity.
    + unfold bet. rewrite Hf, Hlt. reflexivity.
    + unfold withdraw. rewrite Hf, Hlt. reflexivity.
  - intros a b -> Hb Hle.
    assert (Hlt : (coins_get (coins user) c <? Fin a)%num = false).
    { rewrite Hb. apply num_ltb_Fin_false. exact Hle. }
    split; [| split].
    + intros t bt Htc Ht.
      destruct (swap_finite_valid user c t a b bt) as [rate [Er Hv]];
        [congruence | exact Hb | exact Ht |].
      destruct (swap_passes s uid user c t (Fin a) Hf Hlt Hv) as [E _].
      rewrite E. reflexivity.
    + intros avatar.
      destruct (bet_passes s uid user c a b avatar Hf Hb Hlt)
        as [s' [res [cs [E _]]]].
      rewrite E. reflexivity.
    + intros method details. unfold withdraw. rewrite Hf, Hlt.
      unfold validate. simpl forallb. simpl coins.
      rewrite coins_get_set_same, Hb. reflexivity.
  - intros ->.
    assert (Hlt : (coins_get (coins user) c <? NaN)%num = false)
      by apply num_ltb_NaN_r.
    split; [| split].
    + intros t. apply (swap_save_rejected s uid user c t NaN Hf Hlt).
      unfold validate. simpl forallb. simpl coins.
      rewrite num_sub_NaN_r.
      destruct (coin_eqb c t) eqn:E.
      * apply coin_eqb_eq in E. subst t.
        rewrite !coins_get_set_same. reflexivity.
      * rewrite (coins_get_set_other _ t c).
        -- rewrite coins_get_set_same. reflexivity.
        -- intros H. subst t. rewrite coin_eqb_refl in E. discriminate.
    + intros avatar. unfold bet, Math_random. rewrite Hf, Hlt.
      unfold validate. simpl forallb.
      destruct (_ >? _)%num; simpl coins; rewrite coins_get_set_same;
        rewrite ?num_sub_NaN_r, ?num_add_NaN_r; simpl; auto.
    + intros method details. unfold withdraw. rewrite Hf, Hlt.
      unfold validate. simpl forallb. simpl coins.
      rewrite coins_get_set_same, num_sub_NaN_r. reflexivity.
Qed.

Lemma amount_checked_against_balance_only_witness :
  findOne_userId (users sample_state) 1 = Some alice /\
  (coins_get (coins alice) nc <? PInf)%num = true /\
  swap sample_state 1 nc sc PInf
  = (sample_state, Status400 "Insufficient balance") /\
  coins_get (coins alice) nc = Fin 100 /\ -5 <= 100 /\
  sc <> nc /\ coins_get (coins alice) sc = Fin 0 /\
  is_success (snd (swap sample_state 1 nc sc (Fin (-5)))) = true /\
  is_success (snd (withdraw sample_state 1 nc (Fin (-5)) "m" "d")) = true /\
  swap sample_state 1 nc sc NaN = (sample_state, Status500).
Proof.
  split; [reflexivity |]. split; [reflexivity |].
  split.
  { apply (proj1 (amount_checked_against_balance_only
                    sample_state 1 alice nc PInf eq_refl) eq_refl). }
  split; [reflexivity |]. split; [lra |]. split; [discriminate |].
  split; [reflexivity |].
  destruct (proj1 (proj2 (amount_checked_against_balance_only
                            sample_state 1 alice nc (Fin (-5)) eq_refl))
                  (-5) 100 eq_refl eq_refl) as [Hswap [_ Hwd]]; [lra |].
  split; [apply (Hswap sc 0); [discriminate | reflexivity] |].
  split; [apply (Hwd "m"%string "d"%string) |].
  apply (proj2 (proj2 (amount_checked_against_balance_only
                         sample_state 1 alice nc NaN eq_refl)) eq_refl).
Defined.

(** C3 as stated fails: swap, bet and withdraw accept an amount of [-5],
    answer with success and store changed balances: the debited balance
    goes up, and the swap drives the credited balance below zero. *)
Lemma negative_amount_is_applied :
  match swap sample_state 1 nc sc (Fin (-5)) with
  | (s', SwapOk received _ cs) =>
      (received <? Fin 0)%num = true /\
      (coins_get (coins alice) nc <? coins_get cs nc)%num = true /\
      (coins_get cs sc <? Fin 0)%num = true /\
      findOne_userId (users s') 1 = Some (set_coins alice cs)
  | _ => False
  end /\
  match bet losing_state 1 gc (Fin (-5)) "fox" with
  | (s', BetOk _ cs) =>
      (coins_get (coins alice) gc <? coins_get cs gc)%num = true /\
      findOne_userId (users s') 1 = Some (set_coins alice cs)
  | _ => False
  end /\
  match withdraw sample_state 1 gc (Fin (-5)) "telebirr" "0911" with
  | (s', WithdrawOk _ _) =>
      match findOne_userId (users s') 1 with
      | Some u =>
          (coins_get (coins alice) gc <? coins_get (coins u) gc)%num = true
      | None => False
      end
  | _ => False
  end.
Proof.
  vm_compute. repeat split.
Qed.

(** C4 (amended).  The rate table has no entry from a currency to itself,
    so [/api/swap] from [c] to [c] never succeeds.  For an amount with
    [0 < amount <= balance] it passes the balance check, [received] is
    [NaN], the balance assigned is [NaN], the save is refused and 500 is
    answered: no balance changes and no transaction is recorded.  For any
    amount whatever the state is returned unchanged with an error. *)
Theorem swap_same_coin_has_no_rate (s : state) (uid : Z) (user : User)
    (c : coin) (amount bal : Q) :
  findOne_userId (users s) uid = Some user ->
  coins_get (coins user) c = Fin bal ->
  0 < amount -> amount <= bal ->
  swap s uid c c (Fin amount) = (s, Status500) /\
  (forall amount' : num,
      fst (swap s uid c c amount') = s /\
      is_success (snd (swap s uid c c amount')) = false).
Proof.
  intros Hf Hbal Hpos Hle.
  assert (Hrate : exchangeRates c c = None) by (destruct c; reflexivity).
  assert (Hnan : forall amount' : num,
            validate
              (set_coins user
                 (coins_set
                    (coins_set (coins user) c
                       (coins_get (coins user) c - amount')%num)
                    c
                    (coins_get
                       (coins_set (coins user) c
                          (coins_get (coins user) c - amount')%num) c
                     + (amount' - amount' * Fin transactionFee)
                       * to_number (exchangeRates c c))%num))
              [PCoin c; PCoin c] = false).
  { intros amount'. unfold validate. simpl forallb. simpl coins.
    rewrite !coins_get_set_same, Hrate. simpl to_number.
    rewrite num_mul_NaN_r, num_add_NaN_r. reflexivity. }
  split.
  - apply (swap_save_rejected s uid user c c (Fin amount) Hf);
      [rewrite Hbal; apply num_ltb_Fin_false; exact Hle | apply Hnan].
  - intros amount'.
    destruct (coins_get (coins user) c <? amount')%num eqn:Hlt.
    + unfold swap. rewrite Hf, Hlt. split; reflexivity.
    + rewrite (swap_save_rejected s uid user c c amount' Hf Hlt (Hnan amount')).
      split; reflexivity.
Qed.

Lemma swap_same_coin_has_no_rate_witness :
  findOne_userId (users sample_state) 1 = Some alice /\
  coins_get (coins alice) nc = Fin 100 /\
  0 < 100 /\ 100 <= 100 /\
  swap sample_state 1 nc nc (Fin 100) = (sample_state, Status500).
Proof.
  split; [reflexivity |]. split; [reflexivity |].
  split; [lra |]. split; [lra |].
  apply (swap_same_coin_has_no_rate sample_state 1 alice nc 100 100);
    [reflexivity | reflexivity | lra | lra].
Defined.

(** C4 as stated fails: swapping 100 NC into NC on a balance of 100 does
    not succeed; nothing is credited back, the NC balance stays 100 and no
    transaction is recorded. *)
Lemma swap_same_coin_not_fee_only :
  is_success (snd (swap sample_state 1 nc nc (Fin 100))) = false /\
  snd (swap sample_state 1 nc nc (Fin 100)) = Status500 /\
  findOne_userId (users (fst (swap sample_state 1 nc nc (Fin 100)))) 1
  = Some alice /\
  coins_get (coins alice) nc = Fin 100 /\
  transactions (fst (swap sample_state 1 nc nc (Fin 100))) = [].
Proof.
  vm_compute. repeat split.
Qed.


Lemma safe_magnitude_above_100 : 100 <= safe_magnitude.
Proof. unfold safe_magnitude. vm_compute. discriminate. Defined.



Lemma num_geb_Fin (a b : Q) : (Fin a >=? Fin b)%num = Qle_bool b a.
Proof. simpl. apply negb_involutive. Qed.




(** * Further properties of the handlers *)

(** ** The store: what saving and incrementing leave alone *)

Lemma write_path_identity (doc stored : User) (p : path) :
  identity (write_path doc stored p) = identity stored.
Proof. destruct p; reflexivity. Qed.

Lemma fold_write_path_identity (doc : User) (ps : list path) (stored : User) :
  identity (fold_left (write_path doc) ps stored) = identity stored.
Proof.
  revert stored. induction ps as [| p ps IH]; intros stored; simpl.
  - reflexivity.
  - rewrite IH. apply write_path_identity.
Qed.

Lemma save_identity (us : list User) (doc : User) (ps : list path) :
  map identity (save us doc ps) = map identity us.
Proof.
  unfold save. rewrite map_map. apply map_ext. intros u.
  destruct (Z.eqb (userId u) (userId doc)); [| reflexivity].
  apply fold_write_path_identity.
Qed.

Lemma inc_first_identity (us : list User) (uid : Z) (c : coin) (a : num) :
  map identity (inc_first us uid c a) = map identity us.
Proof.
  induction us as [| u us IH]; simpl; [reflexivity |].
  destruct (Z.eqb (userId u) uid); simpl; [reflexivity |].
  rewrite IH. reflexivity.
Qed.

Lemma inc_first_absent (us : list User) (uid : Z) (c : coin) (a : num) :
  findOne_userId us uid = None -> inc_first us uid c a = us.
Proof.
  unfold findOne_userId.
  induction us as [| u us IH]; simpl; intros H; [reflexivity |].
  destruct (Z.eqb (userId u) uid); [discriminate |].
  rewrite IH by exact H. reflexivity.
Qed.

Lemma findOne_userId_inc_first (us : list User) (uid uid' : Z) (c : coin)
    (a : num) :
  findOne_userId (inc_first us uid c a) uid' =
  if Z.eqb uid uid'
  then option_map
         (fun u => set_coins u (coins_set (coins u) c
                                  (coins_get (coins u) c + a)%num))
         (findOne_userId us uid)
  else findOne_userId us uid'.
Proof.
  unfold findOne_userId.
  induction us as [| u us IH]; simpl.
  - destruct (Z.eqb uid uid'); reflexivity.
  - destruct (Z.eqb (userId u) uid) eqn:E; simpl.
    + apply Z.eqb_eq in E. rewrite E.
      destruct (Z.eqb uid uid') eqn:E'; [reflexivity |].
      simpl. reflexivity.
    + destruct (Z.eqb (userId u) uid') eqn:E'.
      * destruct (Z.eqb uid uid') eqn:E''; [| reflexivity].
        apply Z.eqb_eq in E'', E'. apply Z.eqb_neq in E. congruence.
      * exact IH.
Qed.

Lemma findOne_userId_save_other (us : list User) (doc : User)
    (ps : list path) (uid : Z) :
  userId doc <> uid ->
  findOne_userId (save us doc ps) uid = findOne_userId us uid.
Proof.
  intros Hne. rewrite findOne_userId_save.
  destruct (findOne_userId us uid) as [u |] eqn:Hf; [| reflexivity].
  apply findOne_userId_In in Hf. destruct Hf as [_ Hu]. simpl.
  destruct (Z.eqb (userId u) (userId doc)) eqn:E; [| reflexivity].
  apply Z.eqb_eq in E. congruence.
Qed.

Lemma findOne_userId_absent (us : list User) (uid : Z) :
  findOne_userId us uid = None -> ~ In uid (map userId us).
Proof.
  unfold findOne_userId. intros Hf Hin.
  apply in_map_iff in Hin. destruct Hin as [u [Hu Hin]].
  apply (find_none _ _ Hf) in Hin. apply Z.eqb_neq in Hin. contradiction.
Qed.

Lemma map_userId_identity (us : list User) :
  map userId us = map fst (map identity us).
Proof. rewrite map_map. reflexivity. Qed.

(** ** Runs: facts that hold in every observed state *)

Lemma trace_invariant (P : state -> Prop) :
  (forall s r, P s -> P (handle s r)) ->
  forall rs s, P s -> Forall P (trace s rs).
Proof.
  intros Hstep rs. induction rs as [| r rs IH]; intros s Hs; simpl.
  - constructor; [exact Hs | constructor].
  - constructor; [exact Hs |]. apply IH. apply Hstep. exact Hs.
Qed.

Lemma trace_preorder (R : state -> state -> Prop) :
  (forall s, R s s) ->
  (forall s r s', R (handle s r) s' -> R s s') ->
  forall rs s, Forall (R s) (trace s rs).
Proof.
  intros Hrefl Hstep rs. induction rs as [| r rs IH]; intros s; simpl.
  - constructor; [apply Hrefl | constructor].
  - constructor; [apply Hrefl |].
    eapply Forall_impl; [| apply IH]. intros s'. apply Hstep.
Qed.

(** One request keeps the identities of all accounts, in order; only a
    [/start] from a user without an account adds one, at the end. *)
Lemma handle_identity (s : state) (r : request) :
  map identity (users (handle s r)) = map identity (users s) \/
  exists chat uid un fn ln code,
    r = ReqStart chat uid un fn ln code /\
    findOne_userId (users s) uid = None /\
    map identity (users (handle s r))
    = map identity (users s) ++ [(uid, new_referralCode uid)].
Proof.
  destruct r as [uid c a | uid f t a | uid c a av | uid c a m d
                | uid code | chat uid un fn ln code]; simpl.
  - left. apply inc_first_identity.
  - left. unfold swap.
    destruct (findOne_userId (users s) uid); [| reflexivity].
    destruct (_ <? _)%num; [reflexivity |].
    destruct (validate _ _); [apply save_identity | reflexivity].
  - left. unfold bet.
    destruct (findOne_userId (users s) uid); [| reflexivity].
    destruct (_ <? _)%num; [reflexivity |]. unfold Math_random.
    destruct (_ >? _)%num;
      (destruct (validate _ _); [apply save_identity | reflexivity]).
  - left. unfold withdraw.
    destruct (findOne_userId (users s) uid); [| reflexivity].
    destruct (_ <? _)%num; [reflexivity |].
    destruct (validate _ _); [apply save_identity | reflexivity].
  - left. unfold referral.
    destruct (findOne_referralCode (users s) code); [| reflexivity].
    destruct (findOne_userId (users s) uid); [| reflexivity].
    destruct (truthy _); [reflexivity |].
    simpl. rewrite !save_identity. reflexivity.
  - unfold start.
    destruct (findOne_userId (users s) uid) eqn:Hf; [left; reflexivity |].
    right. exists chat, uid, un, fn, ln, code.
    split; [reflexivity |]. split; [exact Hf |].
    destruct code as [rc |];
      [| simpl; unfold insert; rewrite map_app; reflexivity].
    destruct (truthy (Some rc));
      [| simpl; unfold insert; rewrite map_app; reflexivity].
    destruct (findOne_referralCode (users s) rc);
      simpl; unfold insert; rewrite map_app; [rewrite save_identity |];
      reflexivity.
Qed.

(** One request appends at most one transaction and rewrites none. *)
Lemma handle_transactions (s : state) (r : request) :
  exists l, transactions (handle s r) = transactions s ++ l /\
            (List.length l <= 1)%nat.
Proof.
  assert (Same : forall s', transactions s' = transactions s ->
            exists l, transactions s' = transactions s ++ l /\
                      (List.length l <= 1)%nat).
  { intros s' E. exists []. rewrite app_nil_r. split; [exact E | simpl; lia]. }
  destruct r as [uid c a | uid f t a | uid c a av | uid c a m d
                | uid code | chat uid un fn ln code]; simpl.
  - apply Same. reflexivity.
  - unfold swap.
    destruct (findOne_userId (users s) uid); [| apply Same; reflexivity].
    destruct (_ <? _)%num; [apply Same; reflexivity |].
    destruct (validate _ _); [| apply Same; reflexivity].
    simpl. eexists. split; [reflexivity | simpl; lia].
  - unfold bet.
    destruct (findOne_userId (users s) uid); [| apply Same; reflexivity].
    destruct (_ <? _)%num; [apply Same; reflexivity |]. unfold Math_random.
    destruct (_ >? _)%num;
      (destruct (validate _ _); [| apply Same; reflexivity]);
      simpl; eexists; (split; [reflexivity | simpl; lia]).
  - unfold withdraw.
    destruct (findOne_userId (users s) uid); [| apply Same; reflexivity].
    destruct (_ <? _)%num; [apply Same; reflexivity |].
    destruct (validate _ _); [| apply Same; reflexivity].
    simpl. eexists. split; [reflexivity | simpl; lia].
  - unfold referral.
    destruct (findOne_referralCode (users s) code);
      [| apply Same; reflexivity].
    destruct (findOne_userId (users s) uid); [| apply Same; reflexivity].
    destruct (truthy _); [apply Same; reflexivity |].
    simpl. eexists. split; [reflexivity | simpl; lia].
  - apply Same. unfold start.
    destruct (findOne_userId (users s) uid); [reflexivity |].
    destruct code as [rc |]; [| reflexivity].
    destruct (truthy (Some rc)); [| reflexivity].
    destruct (findOne_referralCode (users s) rc); reflexivity.
Qed.

(** X1.  Accounts are never deleted, reordered or re-keyed: in every state
    observed while any sequence of requests is served, the list of
    (user id, own referral code) pairs starts with the list of the initial
    state; new accounts only come after it. *)
Theorem identities_only_grow (s : state) (rs : list request) :
  Forall (fun s' => exists l,
              map identity (users s') = map identity (users s) ++ l)
         (trace s rs).
Proof.
  apply (trace_preorder
           (fun s s' => exists l,
                map identity (users s') = map identity (users s) ++ l)).
  - intros s0. exists []. rewrite app_nil_r. reflexivity.
  - intros s0 r s' [l Hl].
    destruct (handle_identity s0 r) as [E | [? [uid [? [? [? [? [_ [_ E]]]]]]]]];
      rewrite E in Hl.
    + exists l. exact Hl.
    + rewrite <- app_assoc in Hl. eexists. exact Hl.
Qed.

Lemma handle_user_ids_unique (s : state) (r : request) :
  NoDup (map userId (users s)) -> NoDup (map userId (users (handle s r))).
Proof.
  intros Hs.
  destruct (handle_identity s r) as [E | [? [uid [? [? [? [? [_ [Hf E]]]]]]]]];
    rewrite map_userId_identity, E, <- ?map_userId_identity.
  - exact Hs.
  - rewrite map_app, <- map_userId_identity. simpl.
    apply NoDup_app.
    + exact Hs.
    + constructor; [intros [] | constructor].
    + intros y Hin [Hy | []]. subst y.
      apply (findOne_userId_absent _ _ Hf). exact Hin.
Qed.

(** X2.  The user ids stay unique: if no two accounts share a user id, then
    no two accounts share one in any state observed while any sequence of
    requests is served ([/start] creates an account only for an id that has
    none). *)
Theorem user_ids_stay_unique (s : state) (rs : list request) :
  NoDup (map userId (users s)) ->
  Forall (fun s' => NoDup (map userId (users s'))) (trace s rs).
Proof.
  apply (trace_invariant (fun s' => NoDup (map userId (users s')))).
  apply handle_user_ids_unique.
Qed.

Lemma user_ids_stay_unique_witness :
  NoDup (map userId (users sample_state)) /\
  Forall (fun s' => NoDup (map userId (users s')))
         (trace sample_state sample_requests).
Proof.
  assert (H : NoDup (map userId (users sample_state))).
  { simpl. repeat constructor; simpl; intuition discriminate. }
  split; [exact H |].
  apply (user_ids_stay_unique sample_state sample_requests). exact H.
Defined.

(** X3.  The transaction log is append-only: in every state observed while
    a sequence of requests is served, the log is the initial log followed
    by at most one new record per request; no record is ever removed or
    rewritten. *)
Theorem transactions_append_only (s : state) (rs : list request) :
  Forall (fun s' => exists l,
              transactions s' = transactions s ++ l /\
              (List.length l <= List.length rs)%nat)
         (trace s rs).
Proof.
  revert s. induction rs as [| r rs IH]; intros s; simpl.
  - constructor; [| constructor].
    exists []. rewrite app_nil_r. split; [reflexivity | simpl; lia].
  - constructor.
    + exists []. rewrite app_nil_r. split; [reflexivity | simpl; lia].
    + destruct (handle_transactions s r) as [l0 [E0 Hl0]].
      eapply Forall_impl; [| apply (IH (handle s r))].
      intros s' [l [E Hl]]. exists (l0 ++ l).
      rewrite E, E0, <- app_assoc. split; [reflexivity |].
      rewrite List.length_app. lia.
Qed.

(** ** What a request records, consumes and leaves alone *)


(** X5.  Only [/api/bet] consumes randomness, exactly one draw, and only
    after its balance check: every request leaves the random source as it
    was, and the number of consumed draws grows, by one, exactly when the
    request is a bet by an existing user whose balance of the staked
    currency is not below the stake (also when the save is then refused). *)
Theorem only_bets_draw (s : state) (r : request) :
  random_source (handle s r) = random_source s /\
  (random_used (handle s r) = random_used s \/
   exists uid c a avatar user,
     r = ReqBet uid c a avatar /\
     findOne_userId (users s) uid = Some user /\
     (coins_get (coins user) c <? a)%num = false /\
     random_used (handle s r) = S (random_used s)) /\
  (forall uid c a avatar user,
      r = ReqBet uid c a avatar ->
      findOne_userId (users s) uid = Some user ->
      (coins_get (coins user) c <? a)%num = false ->
      random_used (handle s r) = S (random_used s)).
Proof.
  assert (Hbet : forall uid c a av user,
            findOne_userId (users s) uid = Some user ->
            (coins_get (coins user) c <? a)%num = false ->
            random_source (fst (bet s uid c a av)) = random_source s /\
            random_used (fst (bet s uid c a av)) = S (random_used s)).
  { intros uid c a av user Hf Hlt. unfold bet, Math_random.
    rewrite Hf, Hlt.
    destruct (_ >? _)%num; (destruct (validate _ _); split; reflexivity). }
  destruct r as [uid c a | uid f t a | uid c a av | uid c a m d
                | uid code | chat uid un fn ln code]; simpl.
  - split; [reflexivity |]. split; [left; reflexivity |].
    intros; discriminate.
  - split; [| split; [| intros; discriminate]]; unfold swap;
      destruct (findOne_userId (users s) uid); try reflexivity;
      try (left; reflexivity);
      destruct (_ <? _)%num; try reflexivity; try (left; reflexivity);
      destruct (validate _ _); try reflexivity; left; reflexivity.
  - destruct (findOne_userId (users s) uid) as [user |] eqn:Hf.
    + destruct (coins_get (coins user) c <? a)%num eqn:E.
      * split; [unfold bet; rewrite Hf, E; reflexivity |].
        split; [left; unfold bet; rewrite Hf, E; reflexivity |].
        intros uid0 c0 a0 av0 user0 Hr Hf0 E0.
        injection Hr as <- <- <- <-. congruence.
      * destruct (Hbet uid c a av user Hf E) as [Hsrc Hused].
        split; [exact Hsrc |].
        split; [right; exists uid, c, a, av, user; auto |].
        intros; exact Hused.
    + split; [unfold bet; rewrite Hf; reflexivity |].
      split; [left; unfold bet; rewrite Hf; reflexivity |].
      intros uid0 c0 a0 av0 user0 Hr Hf0 E0.
      injection Hr as <- <- <- <-. congruence.
  - split; [| split; [| intros; discriminate]]; unfold withdraw;
      destruct (findOne_userId (users s) uid); try reflexivity;
      try (left; reflexivity);
      destruct (_ <? _)%num; try reflexivity; try (left; reflexivity);
      destruct (validate _ _); try reflexivity; left; reflexivity.
  - split; [| split; [| intros; discriminate]]; unfold referral;
      destruct (findOne_referralCode (users s) code); try reflexivity;
      try (left; reflexivity);
      destruct (findOne_userId (users s) uid); try reflexivity;
      try (left; reflexivity);
      destruct (truthy _); try reflexivity; left; reflexivity.
  - split; [| split; [| intros; discriminate]]; unfold start;
      destruct (findOne_userId (users s) uid); try reflexivity;
      try (left; reflexivity);
      destruct code as [rc |]; try reflexivity; try (left; reflexivity);
      destruct (truthy (Some rc)); try reflexivity; try (left; reflexivity);
      destruct (findOne_referralCode (users s) rc); try reflexivity;
      left; reflexivity.
Qed.

Lemma only_bets_draw_witness :
  findOne_userId (users sample_state) 1 = Some alice /\
  (coins_get (coins alice) gc <? Fin 50)%num = false /\
  random_used (handle sample_state (ReqBet 1 gc (Fin 50) "fox"))
  = S (random_used sample_state).
Proof.
  split; [reflexivity |]. split; [reflexivity |].
  apply (proj2 (proj2 (only_bets_draw sample_state
                         (ReqBet 1 gc (Fin 50) "fox")))
               1%Z gc (Fin 50) "fox"%string alice);
    reflexivity.
Defined.

Lemma set_users_same (s : state) : set_users s (users s) = s.
Proof. destruct s; reflexivity. Qed.

(** X6.  A request that names a user id with no account changes nothing:
    [GET /api/user] answers 404, the coin update answers [null], swap, bet
    and withdraw answer 500, and [/api/referral] answers with an error (400
    for a code nobody owns, 500 otherwise); each returns the state it was
    given. *)
Theorem unknown_user_changes_nothing (s : state) (uid : Z) :
  findOne_userId (users s) uid = None ->
  get_user s uid = (s, Status404 "User not found") /\
  (forall c a, update_coins s uid c a = (s, UserJson None)) /\
  (forall f t a, swap s uid f t a = (s, Status500)) /\
  (forall c a avatar, bet s uid c a avatar = (s, Status500)) /\
  (forall c a method details,
      withdraw s uid c a method details = (s, Status500)) /\
  (forall code,
      referral s uid code
      = (s, match findOne_referralCode (users s) code with
            | Some _ => Status500
            | None => Status400 "Invalid referral code"
            end)).
Proof.
  intros Hf. repeat split; intros.
  - unfold get_user. rewrite Hf. reflexivity.
  - unfold update_coins. rewrite (inc_first_absent _ _ _ _ Hf), Hf.
    rewrite set_users_same. reflexivity.
  - unfold swap. rewrite Hf. reflexivity.
  - unfold bet. rewrite Hf. reflexivity.
  - unfold withdraw. rewrite Hf. reflexivity.
  - unfold referral. rewrite Hf.
    destruct (findOne_referralCode (users s) code); reflexivity.
Qed.

Lemma unknown_user_changes_nothing_witness :
  findOne_userId (users sample_state) 42 = None /\
  get_user sample_state 42 = (sample_state, Status404 "User not found") /\
  update_coins sample_state 42 nc (Fin 5) = (sample_state, UserJson None) /\
  swap sample_state 42 nc sc (Fin 5) = (sample_state, Status500) /\
  referral sample_state 42 "5COIN-1" = (sample_state, Status500).
Proof.
  split; [reflexivity |].
  destruct (unknown_user_changes_nothing sample_state 42 eq_refl)
    as [Hget [Hcoins [Hswap [_ [_ Href]]]]].
  split; [exact Hget |].
  split; [exact (Hcoins nc (Fin 5)) |].
  split; [exact (Hswap nc sc (Fin 5)) |].
  exact (Href "5COIN-1"%string).
Defined.

Lemma findOne_userId_insert_other (us : list User) (doc : User) (uid : Z) :
  userId doc <> uid ->
  findOne_userId (insert us doc) uid = findOne_userId us uid.
Proof.
  intros Hne. unfold findOne_userId, insert.
  induction us as [| u us IH]; simpl.
  - apply Z.eqb_neq in Hne. rewrite Hne. reflexivity.
  - destruct (Z.eqb (userId u) uid); [reflexivity | exact IH].
Qed.

Lemma findOne_userId_insert_found (us : list User) (doc u : User) (uid : Z) :
  findOne_userId us uid = Some u ->
  findOne_userId (insert us doc) uid = Some u.
Proof.
  unfold findOne_userId, insert.
  induction us as [| v us IH]; simpl; intros H; [discriminate |].
  destruct (Z.eqb (userId v) uid); [exact H | auto].
Qed.

(** X7.  A request touches only the accounts it concerns.  For a user id
    that is neither the one the request names nor the owner of the referral
    code it carries, a lookup returns after the request exactly the document
    it returned before. *)
Theorem other_accounts_untouched (s : state) (r : request) (uid' : Z) :
  request_user r <> uid' ->
  (forall code referrer,
      request_code r = Some code ->
      findOne_referralCode (users s) code = Some referrer ->
      userId referrer <> uid') ->
  findOne_userId (users (handle s r)) uid' = findOne_userId (users s) uid'.
Proof.
  intros Hne Hcode.
  destruct r as [uid c a | uid f t a | uid c a av | uid c a m d
                | uid code | chat uid un fn ln code]; simpl in *.
  - rewrite findOne_userId_inc_first.
    apply Z.eqb_neq in Hne. rewrite Hne. reflexivity.
  - unfold swap.
    destruct (findOne_userId (users s) uid) as [user |] eqn:Hf;
      [| reflexivity].
    destruct (_ <? _)%num; [reflexivity |].
    destruct (validate _ _); [| reflexivity]. simpl.
    apply findOne_userId_save_other. simpl.
    apply findOne_userId_In in Hf. destruct Hf as [_ Hu]. congruence.
  - unfold bet.
    destruct (findOne_userId (users s) uid) as [user |] eqn:Hf;
      [| reflexivity].
    destruct (_ <? _)%num; [reflexivity |]. unfold Math_random.
    apply findOne_userId_In in Hf. destruct Hf as [_ Hu].
    destruct (_ >? _)%num;
      (destruct (validate _ _); [| reflexivity]);
      simpl; apply findOne_userId_save_other; simpl; congruence.
  - unfold withdraw.
    destruct (findOne_userId (users s) uid) as [user |] eqn:Hf;
      [| reflexivity].
    destruct (_ <? _)%num; [reflexivity |].
    destruct (validate _ _); [| reflexivity]. simpl.
    apply findOne_userId_save_other. simpl.
    apply findOne_userId_In in Hf. destruct Hf as [_ Hu]. congruence.
  - unfold referral.
    destruct (findOne_referralCode (users s) code) as [referrer |] eqn:Hc;
      [| reflexivity].
    destruct (findOne_userId (users s) uid) as [user |] eqn:Hf;
      [| reflexivity].
    destruct (truthy _); [reflexivity |]. simpl.
    apply findOne_userId_In in Hf. destruct Hf as [_ Hu].
    rewrite findOne_userId_save_other
      by (simpl; apply (Hcode code referrer eq_refl Hc)).
    apply findOne_userId_save_other. simpl. congruence.
  - unfold start.
    destruct (findOne_userId (users s) uid) as [user |] eqn:Hf;
      [reflexivity |].
    destruct code as [rc |];
      [| simpl; apply findOne_userId_insert_other; exact Hne].
    destruct (truthy (Some rc));
      [| simpl; apply findOne_userId_insert_other; exact Hne].
    destruct (findOne_referralCode (users s) rc) as [referrer |] eqn:Hc;
      simpl; rewrite findOne_userId_insert_other by exact Hne;
      [| reflexivity].
    apply findOne_userId_save_other. simpl.
    apply (Hcode rc referrer eq_refl Hc).
Qed.

Lemma other_accounts_untouched_witness :
  request_user (ReqReferral 300 "5COIN-FF") <> 1%Z /\
  (forall code referrer,
      request_code (ReqReferral 300 "5COIN-FF") = Some code ->
      findOne_referralCode (users sample_state) code = Some referrer ->
      userId referrer <> 1%Z) /\
  findOne_userId
    (users (handle sample_state (ReqReferral 300 "5COIN-FF"))) 1
  = findOne_userId (users sample_state) 1.
Proof.
  assert (Hcode : forall code referrer,
            request_code (ReqReferral 300 "5COIN-FF") = Some code ->
            findOne_referralCode (users sample_state) code = Some referrer ->
            userId referrer <> 1%Z).
  { intros code referrer Hcode Hfound.
    injection Hcode as <-. vm_compute in Hfound.
    injection Hfound as <-. discriminate. }
  split; [discriminate |]. split; [exact Hcode |].
  apply (other_accounts_untouched sample_state
           (ReqReferral 300 "5COIN-FF") 1%Z); [discriminate | exact Hcode].
Defined.

(** One request keeps the [referredBy] of an account that has one. *)
Lemma handle_referredBy (s : state) (r : request) (uid : Z) (u : User) :
  findOne_userId (users s) uid = Some u ->
  truthy (referredBy u) = true ->
  exists u', findOne_userId (users (handle s r)) uid = Some u' /\
             referredBy u' = referredBy u.
Proof.
  intros Hu Ht.
  assert (Hsave : forall doc ps,
            ~ In PReferredBy ps ->
            exists u', findOne_userId (save (users s) doc ps) uid = Some u' /\
                       referredBy u' = referredBy u).
  { intros doc ps Hps. rewrite findOne_userId_save, Hu. simpl.
    destruct (Z.eqb (userId u) (userId doc)); [| eauto].
    eexists. split; [reflexivity |].
    clear Hu Ht. revert u.
    induction ps as [| p ps IH]; intros u; simpl; [reflexivity |].
    rewrite IH by (intros H; apply Hps; right; exact H).
    destruct p; try reflexivity. exfalso. apply Hps. left. reflexivity. }
  assert (Hcoin : forall c, ~ In PReferredBy [PCoin c]).
  { intros c [H | []]. discriminate. }
  assert (Hbonus : ~ In PReferredBy [PReferrals; PEarned; PCoin nc]).
  { intros [H | [H | [H | []]]]; discriminate. }
  destruct r as [uid0 c a | uid0 f t a | uid0 c a av | uid0 c a m d
                | uid0 code | chat uid0 un fn ln code]; simpl.
  - rewrite findOne_userId_inc_first.
    destruct (Z.eqb uid0 uid) eqn:E; [| eauto].
    apply Z.eqb_eq in E. subst uid0. rewrite Hu. simpl. eauto.
  - unfold swap.
    destruct (findOne_userId (users s) uid0) as [user |]; [| eauto].
    destruct (_ <? _)%num; [eauto |].
    destruct (validate _ _); [| eauto]. simpl.
    rewrite findOne_userId_save, Hu. simpl.
    destruct (Z.eqb (userId u) (userId user)); eauto.
  - unfold bet.
    destruct (findOne_userId (users s) uid0) as [user |]; [| eauto].
    destruct (_ <? _)%num; [eauto |]. unfold Math_random.
    destruct (_ >? _)%num;
      (destruct (validate _ _); [| simpl; eauto]);
      simpl; apply Hsave; apply Hcoin.
  - unfold withdraw.
    destruct (findOne_userId (users s) uid0) as [user |]; [| eauto].
    destruct (_ <? _)%num; [eauto |].
    destruct (validate _ _); [| eauto]. simpl. apply Hsave. apply Hcoin.
  - unfold referral.
    destruct (findOne_referralCode (users s) code) as [referrer |];
      [| eauto].
    destruct (findOne_userId (users s) uid0) as [user |] eqn:Hf; [| eauto].
    destruct (truthy (referredBy user)) eqn:Hfalsy; [eauto |]. simpl.
    rewrite !findOne_userId_save, Hu. simpl.
    destruct (Z.eqb (userId u) (userId user)) eqn:E.
    + exfalso. apply Z.eqb_eq in E.
      destruct (findOne_userId_In _ _ _ Hu) as [_ E1].
      destruct (findOne_userId_In _ _ _ Hf) as [_ E2].
      assert (Hsame : Some u = Some user) by congruence.
      injection Hsame as Hsame. congruence.
    + destruct (Z.eqb (userId u) (userId referrer)); simpl; eauto.
  - unfold start.
    destruct (findOne_userId (users s) uid0) as [user |]; [eauto |].
    destruct code as [rc |];
      [| simpl; rewrite (findOne_userId_insert_found _ _ u uid Hu); eauto].
    destruct (truthy (Some rc));
      [| simpl; rewrite (findOne_userId_insert_found _ _ u uid Hu); eauto].
    destruct (findOne_referralCode (users s) rc) as [referrer |];
      [| simpl; rewrite (findOne_userId_insert_found _ _ u uid Hu); eauto].
    simpl. destruct (Hsave
      (set_coins
         (set_earned
            (set_referrals referrer (referrals referrer + Fin 1)%num)
            (earned referrer + Fin referral_bonus)%num)
         (coins_set (coins referrer) nc
            (coins_get (coins referrer) nc + Fin referral_bonus)%num))
      [PReferrals; PEarned; PCoin nc] Hbonus) as [u' [Hu' Hr']].
    exists u'. split; [| exact Hr'].
    apply findOne_userId_insert_found. exact Hu'.
Qed.

(** X8.  [referredBy] is written at most once: once an account has a
    (non-empty) [referredBy], the account still exists with the same
    [referredBy] in every state observed while any sequence of requests is
    served. *)
Theorem referredBy_is_write_once (s : state) (rs : list request) (uid : Z)
    (u : User) :
  findOne_userId (users s) uid = Some u ->
  truthy (referredBy u) = true ->
  Forall (fun s' => exists u',
              findOne_userId (users s') uid = Some u' /\
              referredBy u' = referredBy u)
         (trace s rs).
Proof.
  intros Hu Ht.
  apply (trace_invariant
           (fun s' => exists u',
                findOne_userId (users s') uid = Some u' /\
                referredBy u' = referredBy u)).
  - intros s0 r [u0 [Hu0 Hr0]].
    destruct (handle_referredBy s0 r uid u0 Hu0) as [u' [Hu' Hr']].
    + rewrite Hr0. exact Ht.
    + exists u'. split; [exact Hu' | congruence].
  - exists u. split; [exact Hu | reflexivity].
Qed.

Lemma referredBy_is_write_once_witness :
  findOne_userId (users referred_state) 1 = Some referred_alice /\
  truthy (referredBy referred_alice) = true /\
  Forall (fun s' => exists u',
              findOne_userId (users s') 1 = Some u' /\
              referredBy u' = referredBy referred_alice)
         (trace referred_state sample_requests).
Proof.
  split; [reflexivity |]. split; [reflexivity |].
  apply (referredBy_is_write_once referred_state sample_requests 1
           referred_alice); reflexivity.
Defined.

(** ** Referrals *)

Lemma truthy_nonempty (code : string) :
  code <> ""%string -> truthy (Some code) = true.
Proof.
  intros H. simpl. destruct (String.eqb code "") eqn:E; [| reflexivity].
  apply String.eqb_eq in E. contradiction.
Qed.

Lemma findOne_userId_unique (us : list User) (u : User) :
  NoDup (map userId us) -> In u us -> findOne_userId us (userId u) = Some u.
Proof.
  unfold findOne_userId.
  induction us as [| v us IH]; simpl; intros Hnd Hin; [contradiction |].
  inversion Hnd as [| ? ? Hnotin Hnd']; subst.
  destruct Hin as [-> | Hin].
  - rewrite Z.eqb_refl. reflexivity.
  - destruct (Z.eqb (userId v) (userId u)) eqn:E.
    + exfalso. apply Z.eqb_eq in E. apply Hnotin. rewrite E.
      apply in_map. exact Hin.
    + apply IH; assumption.
Qed.

(** X9.  A referral code can be used once per user.  After a successful
    [/api/referral] with a non-empty code, every further [/api/referral] by
    the same user, with any code, is answered 400 ("Already used a referral
    code" when the code has an owner, "Invalid referral code" otherwise) and
    returns the state unchanged, so no second bonus is paid. *)
Theorem referral_only_once (s : state) (uid : Z) (code code2 : string) :
  code <> ""%string ->
  is_success (snd (referral s uid code)) = true ->
  referral (fst (referral s uid code)) uid code2
  = (fst (referral s uid code),
     Status400
       match findOne_referralCode (users (fst (referral s uid code))) code2
       with
       | Some _ => "Already used a referral code"
       | None => "Invalid referral code"
       end).
Proof.
  intros Hcode Hok.
  assert (Hbound : exists u',
             findOne_userId (users (fst (referral s uid code))) uid = Some u'
             /\ referredBy u' = Some code).
  { unfold referral in *.
    destruct (findOne_referralCode (users s) code) as [referrer |];
      [| discriminate].
    destruct (findOne_userId (users s) uid) as [user |] eqn:Hf;
      [| discriminate].
    destruct (truthy (referredBy user)); [discriminate |]. simpl.
    rewrite !findOne_userId_save, Hf. simpl. rewrite Z.eqb_refl. simpl.
    destruct (Z.eqb (userId user) (userId referrer)); simpl; eauto. }
  destruct Hbound as [u' [Hu' Hr']].
  set (s1 := fst (referral s uid code)) in *.
  unfold referral at 1.
  destruct (findOne_referralCode (users s1) code2); [| reflexivity].
  rewrite Hu', Hr', (truthy_nonempty code Hcode). reflexivity.
Qed.

Lemma referral_only_once_witness :
  "5COIN-FF"%string <> ""%string /\
  is_success (snd (referral sample_state 1 "5COIN-FF")) = true /\
  referral referred_state 1 "5COIN-1"
  = (referred_state, Status400 "Already used a referral code").
Proof.
  split; [discriminate |]. split; [reflexivity |].
  apply (referral_only_once sample_state 1 "5COIN-FF" "5COIN-1");
    [discriminate | reflexivity].
Defined.



(** ** Onboarding *)

Lemma start_lookup (s : state) (chat uid : Z) (un fn ln code : option string) :
  findOne_userId (users s) uid = None ->
  exists rb,
    findOne_userId (users (fst (start s chat uid un fn ln code))) uid
    = Some (mkUser uid un fn ln (new_referralCode uid) rb zero_coins
                   (Fin 0) (Fin 0)) /\
    (rb = None \/
     rb = code /\ truthy code = true /\
     exists rc referrer,
       code = Some rc /\ findOne_referralCode (users s) rc = Some referrer).
Proof.
  intros Hf. unfold start. rewrite Hf.
  assert (Hplain : forall doc,
            userId doc = uid ->
            findOne_userId (insert (users s) doc) uid = Some doc).
  { intros doc Hd. rewrite (findOne_userId_insert _ _ _ Hf), Hd, Z.eqb_refl.
    reflexivity. }
  destruct code as [rc |];
    [| exists None; simpl; rewrite Hplain by reflexivity; auto].
  destruct (truthy (Some rc)) eqn:Ht;
    [| exists None; simpl; rewrite Hplain by reflexivity; auto].
  destruct (findOne_referralCode (users s) rc) as [referrer |] eqn:Hc;
    [| exists None; simpl; rewrite Hplain by reflexivity; auto].
  exists (Some rc). simpl. split.
  - rewrite findOne_userId_insert.
    + simpl. rewrite Z.eqb_refl. reflexivity.
    + rewrite findOne_userId_save, Hf. reflexivity.
  - right. split; [reflexivity |]. split; [reflexivity |]. eauto.
Qed.

Lemma start_lookup_exact (s : state) (chat uid : Z)
    (un fn ln code : option string) :
  findOne_userId (users s) uid = None ->
  findOne_userId (users (fst (start s chat uid un fn ln code))) uid
  = Some (mkUser uid un fn ln (new_referralCode uid)
            match code with
            | Some rc =>
                if truthy code
                then match findOne_referralCode (users s) rc with
                     | Some _ => Some rc
                     | None => None
                     end
                else None
            | None => None
            end
            zero_coins (Fin 0) (Fin 0)).
Proof.
  intros Hf. unfold start. rewrite Hf.
  assert (Hplain : forall doc,
            userId doc = uid ->
            findOne_userId (insert (users s) doc) uid = Some doc).
  { intros doc Hd. rewrite (findOne_userId_insert _ _ _ Hf), Hd, Z.eqb_refl.
    reflexivity. }
  destruct code as [rc |]; [| simpl; apply Hplain; reflexivity].
  destruct (truthy (Some rc)); [| simpl; apply Hplain; reflexivity].
  destruct (findOne_referralCode (users s) rc) as [referrer |];
    [| simpl; apply Hplain; reflexivity].
  simpl. rewrite findOne_userId_insert.
  - simpl. rewrite Z.eqb_refl. reflexivity.
  - rewrite findOne_userId_save, Hf. reflexivity.
Qed.

(** X11.  Creating and looking up an account.  After [/start] from a user
    id that has no account, [GET /api/user] answers with an account for that
    id carrying the generated referral code, the Telegram names, zero
    balances and zero [referrals] and [earned].  Its [referredBy] is the
    code of the command when that code is non-empty and owned by an existing
    account, and unset in every other case (no code, an empty code, a code
    nobody owns). *)
Theorem start_then_get_user (s : state) (chat uid : Z)
    (un fn ln code : option string) :
  findOne_userId (users s) uid = None ->
  exists rb,
    snd (get_user (fst (start s chat uid un fn ln code)) uid)
    = UserJson (Some (mkUser uid un fn ln (new_referralCode uid) rb
                             zero_coins (Fin 0) (Fin 0))) /\
    (forall rc referrer,
        code = Some rc -> rc <> ""%string ->
        findOne_referralCode (users s) rc = Some referrer ->
        rb = Some rc) /\
    (code = None -> rb = None) /\
    (code = Some ""%string -> rb = None) /\
    (forall rc, code = Some rc ->
                findOne_referralCode (users s) rc = None -> rb = None).
Proof.
  intros Hf.
  eexists. split.
  - unfold get_user. rewrite (start_lookup_exact s chat uid un fn ln code Hf).
    reflexivity.
  - split; [| split; [| split]].
    + intros rc referrer -> Hrc Hc.
      rewrite (truthy_nonempty rc Hrc), Hc. reflexivity.
    + intros ->. reflexivity.
    + intros ->. reflexivity.
    + intros rc -> Hc. rewrite Hc. destruct (truthy (Some rc)); reflexivity.
Qed.

Lemma start_then_get_user_witness :
  findOne_userId (users sample_state) 300 = None /\
  "5COIN-FF"%string <> ""%string /\
  findOne_referralCode (users sample_state) "5COIN-FF" = Some bob /\
  snd (get_user
         (fst (start sample_state 7 300 (Some "carol"%string) None None
                     (Some "5COIN-FF"%string))) 300)
  = UserJson (Some (mkUser 300 (Some "carol"%string) None None
                           (new_referralCode 300) (Some "5COIN-FF"%string)
                           zero_coins (Fin 0) (Fin 0))).
Proof.
  split; [reflexivity |]. split; [discriminate |]. split; [reflexivity |].
  destruct (start_then_get_user sample_state 7 300 (Some "carol"%string)
              None None (Some "5COIN-FF"%string) eq_refl)
    as [rb [Hget [Hbound _]]].
  rewrite Hget.
  rewrite (Hbound "5COIN-FF"%string bob eq_refl); [reflexivity | |];
    [discriminate | reflexivity].
Defined.

(** X12.  [/start] creates an account at most once.  Whatever the first
    [/start] of a user did, a second [/start] from the same user id, with any
    names and any code, returns the state unchanged and only sends the
    welcome-back message with the NC balance and the game link: no second
    account, no bonus. *)
Theorem start_twice_welcomes_back (s : state) (chat chat' uid : Z)
    (un fn ln code un' fn' ln' code' : option string) :
  exists user,
    findOne_userId (users (fst (start s chat uid un fn ln code))) uid
    = Some user /\
    start (fst (start s chat uid un fn ln code)) chat' uid un' fn' ln' code'
    = (fst (start s chat uid un fn ln code),
       [WelcomeBack chat' (coins_get (coins user) nc); PlayGame chat']).
Proof.
  assert (Hfound : exists user,
            findOne_userId (users (fst (start s chat uid un fn ln code))) uid
            = Some user).
  { destruct (findOne_userId (users s) uid) as [user |] eqn:Hf.
    - exists user. unfold start. rewrite Hf. exact Hf.
    - destruct (start_lookup s chat uid un fn ln code Hf) as [rb [H _]].
      eauto. }
  destruct Hfound as [user Hu]. exists user. split; [exact Hu |].
  set (s1 := fst (start s chat uid un fn ln code)) in *.
  unfold start at 1. rewrite Hu. reflexivity.
Qed.



(** ** Swaps and the rate table *)



(** X15.  The rate table is consistent: it has no entry from a currency to
    itself; the rates of a pair are positive and reciprocal; and going
    through a third currency multiplies out to the direct rate. *)
Theorem exchangeRates_consistent (a b c : coin) :
  exchangeRates a a = None /\
  match exchangeRates a b, exchangeRates b a with
  | Some r, Some r' => a <> b /\ 0 < r /\ r * r' == 1
  | _, _ => a = b
  end /\
  match exchangeRates a b, exchangeRates b c, exchangeRates a c with
  | Some rab, Some rbc, Some rac => rab * rbc == rac
  | _, _, _ => a = b \/ b = c \/ a = c
  end.
Proof.
  split; [destruct a; reflexivity |]. split.
  - destruct a, b; simpl; try reflexivity;
      (split; [discriminate | split; [lra | reflexivity]]).
  - destruct a, b, c; simpl; try reflexivity; auto.
Qed.

(** X16.  The withdrawal table does not follow the rate table.  For every
    pair of different currencies, either the rate is above 1 and one unit of
    the source buys target coins whose ETB value in [coinValues] is at least
    100 times the source unit's, or the rate is below 1 and it buys at most
    a hundredth; the rate table has no other entries. *)
Theorem rates_disagree_with_coinValues (f t : coin) :
  match exchangeRates f t with
  | Some rate =>
      f <> t /\
      (1 < rate /\ 100 * coinValues f <= rate * coinValues t \/
       rate < 1 /\ 100 * (rate * coinValues t) <= coinValues f)
  | None => f = t
  end.
Proof.
  destruct f, t; simpl; try reflexivity;
    (split; [discriminate |]);
    first [left; split; lra | right; split; lra].
Qed.

(** ** Withdrawals, bets and coin updates *)

Lemma coinValues_positive (c : coin) : 0 < coinValues c.
Proof. destruct c; simpl; lra. Qed.

(** X18.  The withdrawal fee never exceeds 2 ETB nor the value withdrawn.
    For [0 < amount <= balance <= safe_magnitude], [/api/withdraw] succeeds
    with finite figures: the recorded [etbValue] is positive, the fee is
    between 0 and 2, and [received] is between 0 and [etbValue]. *)
Theorem withdraw_fee_is_capped (s : state) (uid : Z) (user : User) (c : coin)
    (amount bal : Q) (method details : string) :
  findOne_userId (users s) uid = Some user ->
  coins_get (coins user) c = Fin bal ->
  0 < amount -> amount <= bal -> bal <= safe_magnitude ->
  exists s' etbValue fee received,
    withdraw s uid c (Fin amount) method details
    = (s', WithdrawOk (Fin received) (Fin fee)) /\
    transactions s'
    = transactions s
      ++ [mkTransaction uid "withdrawal"
            (WithdrawalDetails c (Fin amount) method details
               (Fin etbValue) (Fin fee) (Fin received))] /\
    0 < etbValue /\
    0 <= fee /\ fee <= 2 /\ fee <= etbValue /\
    0 <= received /\ received <= etbValue.
Proof.
  intros Hf Hbal Hpos Hle _.
  assert (Hlt : (coins_get (coins user) c <? Fin amount)%num = false).
  { rewrite Hbal. apply num_ltb_Fin_false. exact Hle. }
  assert (Hv : validate
                 (set_coins user
                    (coins_set (coins user) c
                       (coins_get (coins user) c - Fin amount)%num))
                 [PCoin c] = true).
  { unfold validate. simpl forallb. simpl coins.
    rewrite coins_get_set_same, Hbal. reflexivity. }
  pose proof (coinValues_positive c) as Hval.
  assert (Hetb : 0 < amount * coinValues c)
    by (apply Qmult_lt_0_compat; assumption).
  unfold withdraw. rewrite Hf, Hlt, Hv.
  change (Fin amount * Fin (coinValues c))%num
    with (Fin (amount * coinValues c)).
  rewrite num_geb_Fin.
  destruct (Qle_bool 25 (amount * coinValues c)) eqn:E.
  - apply Qle_bool_iff in E.
    exists
      (record_transaction
         (set_users s
            (save (users s)
               (set_coins user
                  (coins_set (coins user) c
                     (coins_get (coins user) c - Fin amount)%num))
               [PCoin c]))
         (mkTransaction uid "withdrawal"
            (WithdrawalDetails c (Fin amount) method details
               (Fin (amount * coinValues c)) (Fin 2)
               (Fin (amount * coinValues c - 2))))).
    exists (amount * coinValues c), 2, (amount * coinValues c - 2).
    split; [reflexivity |]. split; [reflexivity |].
    repeat split; lra.
  - assert (E' : amount * coinValues c < 25).
    { destruct (Qlt_le_dec (amount * coinValues c) 25) as [H | H];
        [exact H |].
      apply Qle_bool_iff in H. congruence. }
    exists
      (record_transaction
         (set_users s
            (save (users s)
               (set_coins user
                  (coins_set (coins user) c
                     (coins_get (coins user) c - Fin amount)%num))
               [PCoin c]))
         (mkTransaction uid "withdrawal"
            (WithdrawalDetails c (Fin amount) method details
               (Fin (amount * coinValues c))
               (Fin (amount * coinValues c * 0.08))
               (Fin (amount * coinValues c
                     - amount * coinValues c * 0.08))))).
    exists (amount * coinValues c), (amount * coinValues c * 0.08),
      (amount * coinValues c - amount * coinValues c * 0.08).
    split; [reflexivity |]. split; [reflexivity |].
    repeat split; lra.
Qed.

Lemma withdraw_fee_is_capped_witness :
  findOne_userId (users sample_state) 1 = Some alice /\
  coins_get (coins alice) gc = Fin 100 /\
  0 < 50 /\ 50 <= 100 /\ 100 <= safe_magnitude /\
  exists s' etbValue fee received,
    withdraw sample_state 1 gc (Fin 50) "telebirr" "0911"
    = (s', WithdrawOk (Fin received) (Fin fee)) /\
    transactions s'
    = transactions sample_state
      ++ [mkTransaction 1 "withdrawal"
            (WithdrawalDetails gc (Fin 50) "telebirr" "0911"
               (Fin etbValue) (Fin fee) (Fin received))] /\
    0 < etbValue /\
    0 <= fee /\ fee <= 2 /\ fee <= etbValue /\
    0 <= received /\ received <= etbValue.
Proof.
  split; [reflexivity |]. split; [reflexivity |].
  split; [lra |]. split; [lra |].
  split; [exact safe_magnitude_above_100 |].
  apply (withdraw_fee_is_capped sample_state 1%Z alice gc 50 100
           "telebirr"%string "0911"%string);
    [reflexivity | reflexivity | lra | lra | exact safe_magnitude_above_100].
Defined.





(** ** Referral codes *)

Lemma nat_of_ascii_toUpperCase (a : ascii) :
  nat_of_ascii (ascii_toUpperCase a)
  = if andb (Nat.leb 97 (nat_of_ascii a)) (Nat.leb (nat_of_ascii a) 122)
    then (nat_of_ascii a - 32)%nat
    else nat_of_ascii a.
Proof.
  unfold ascii_toUpperCase.
  destruct (andb (Nat.leb 97 (nat_of_ascii a)) (Nat.leb (nat_of_ascii a) 122));
    [| reflexivity].
  apply nat_ascii_embedding.
  pose proof (nat_ascii_bounded a). lia.
Qed.

Lemma ascii_toUpperCase_inj (a b : ascii) :
  andb (Nat.leb 65 (nat_of_ascii a)) (Nat.leb (nat_of_ascii a) 90) = false ->
  andb (Nat.leb 65 (nat_of_ascii b)) (Nat.leb (nat_of_ascii b) 90) = false ->
  ascii_toUpperCase a = ascii_toUpperCase b -> a = b.
Proof.
  intros Ha Hb H.
  apply (f_equal nat_of_ascii) in H.
  rewrite !nat_of_ascii_toUpperCase in H.
  assert (Hn : nat_of_ascii a = nat_of_ascii b).
  { destruct (Nat.leb_spec 65 (nat_of_ascii a)),
             (Nat.leb_spec (nat_of_ascii a) 90),
             (Nat.leb_spec 65 (nat_of_ascii b)),
             (Nat.leb_spec (nat_of_ascii b) 90);
      simpl in Ha, Hb; try discriminate;
      destruct (Nat.leb_spec 97 (nat_of_ascii a)),
               (Nat.leb_spec (nat_of_ascii a) 122),
               (Nat.leb_spec 97 (nat_of_ascii b)),
               (Nat.leb_spec (nat_of_ascii b) 122);
      simpl in H; lia. }
  rewrite <- (ascii_nat_embedding a), <- (ascii_nat_embedding b), Hn.
  reflexivity.
Qed.

Lemma toUpperCase_inj (s1 s2 : string) :
  no_upper s1 = true -> no_upper s2 = true ->
  toUpperCase s1 = toUpperCase s2 -> s1 = s2.
Proof.
  revert s2. induction s1 as [| a s1 IH]; intros [| b s2]; simpl;
    intros H1 H2 H; try discriminate; [reflexivity |].
  apply andb_true_iff in H1. destruct H1 as [Ha H1].
  apply andb_true_iff in H2. destruct H2 as [Hb H2].
  apply negb_true_iff in Ha, Hb.
  injection H as Hab Hs.
  rewrite (ascii_toUpperCase_inj a b Ha Hb Hab), (IH s2 H1 H2 Hs).
  reflexivity.
Qed.

Lemma no_upper_hex_uint (d : Hexadecimal.uint) :
  no_upper (HexadecimalString.NilEmpty.string_of_uint d) = true.
Proof.
  induction d; simpl; auto.
Qed.

Lemma no_upper_hex_uint_zero (d : Hexadecimal.uint) :
  no_upper (HexadecimalString.NilZero.string_of_uint d) = true.
Proof.
  destruct d; [reflexivity | exact (no_upper_hex_uint _) ..].
Qed.

Lemma no_upper_toString16 (n : Z) : no_upper (toString16 n) = true.
Proof.
  unfold toString16, HexadecimalString.NilZero.string_of_int.
  destruct (Z.to_hex_int n) as [d | d].
  - apply no_upper_hex_uint_zero.
  - simpl. apply no_upper_hex_uint_zero.
Qed.

Lemma toString16_inj (a b : Z) : toString16 a = toString16 b -> a = b.
Proof.
  unfold toString16. intros H.
  assert (Hnil : forall n,
            Z.to_hex_int n <> Hexadecimal.Pos Hexadecimal.Nil /\
            Z.to_hex_int n <> Hexadecimal.Neg Hexadecimal.Nil).
  { intros [| p | p]; simpl; split; try discriminate;
      intros E; injection E as E;
      apply (HexadecimalPos.Unsigned.to_uint_nonnil p E). }
  apply (f_equal HexadecimalString.NilZero.int_of_string) in H.
  destruct (Hnil a) as [Ha1 Ha2]. destruct (Hnil b) as [Hb1 Hb2].
  rewrite !HexadecimalString.NilZero.isi in H by assumption.
  injection H as H. apply HexadecimalZ.to_int_inj. exact H.
Qed.

Lemma new_referralCode_inj (a b : Z) :
  new_referralCode a = new_referralCode b -> a = b.
Proof.
  intros H. unfold new_referralCode in H. simpl in H.
  injection H as H.
  apply toString16_inj.
  apply toUpperCase_inj; [apply no_upper_toString16 .. | exact H].
Qed.

(** X21.  Different user ids get different referral codes: the code
    generated at account creation, [5COIN-] followed by the id in upper-case
    hexadecimal, determines the id. *)
Theorem new_referralCode_distinct (a b : Z) :
  a <> b -> new_referralCode a <> new_referralCode b.
Proof.
  intros Hab H. apply Hab. apply new_referralCode_inj. exact H.
Qed.

Lemma new_referralCode_distinct_witness :
  (255 <> 4095)%Z /\ new_referralCode 255 <> new_referralCode 4095.
Proof.
  split; [discriminate |].
  apply (new_referralCode_distinct 255 4095). discriminate.
Defined.

Lemma handle_codes_generated (s : state) (r : request) :
  Forall (fun u => referralCode u = new_referralCode (userId u)) (users s) ->
  Forall (fun u => referralCode u = new_referralCode (userId u))
         (users (handle s r)).
Proof.
  assert (Hid : forall us,
            Forall (fun u => referralCode u = new_referralCode (userId u)) us
            <-> Forall (fun p => snd p = new_referralCode (fst p))
                       (map identity us)).
  { intros us. rewrite Forall_map. reflexivity. }
  intros Hs. apply Hid. apply Hid in Hs.
  destruct (handle_identity s r) as [E | [? [uid [? [? [? [? [_ [_ E]]]]]]]]];
    rewrite E; [exact Hs |].
  apply Forall_app. split; [exact Hs |].
  constructor; [reflexivity | constructor].
Qed.

Lemma findOne_referralCode_unique (us : list User) (u : User) :
  NoDup (map referralCode us) -> In u us ->
  findOne_referralCode us (referralCode u) = Some u.
Proof.
  unfold findOne_referralCode.
  induction us as [| v us IH]; simpl; intros Hnd Hin; [contradiction |].
  inversion Hnd as [| ? ? Hnotin Hnd']; subst.
  destruct Hin as [-> | Hin].
  - rewrite String.eqb_refl. reflexivity.
  - destruct (String.eqb (referralCode v) (referralCode u)) eqn:E.
    + exfalso. apply String.eqb_eq in E. apply Hnotin. rewrite E.
      apply in_map. exact Hin.
    + apply IH; assumption.
Qed.

Lemma generated_codes_unique (us : list User) :
  NoDup (map userId us) ->
  Forall (fun u => referralCode u = new_referralCode (userId u)) us ->
  NoDup (map referralCode us).
Proof.
  induction us as [| u us IH]; simpl; intros Hnd Hgen; [constructor |].
  inversion Hnd as [| ? ? Hnotin Hnd']; subst.
  inversion Hgen as [| ? ? Hu Hgen']; subst.
  constructor; [| apply IH; assumption].
  intros Hin. apply in_map_iff in Hin. destruct Hin as [v [Hv Hin]].
  rewrite Forall_forall in Hgen'. rewrite Hu, (Hgen' v Hin) in Hv.
  destruct (Z.eq_dec (userId v) (userId u)) as [E | E].
  - apply Hnotin. rewrite <- E. apply in_map. exact Hin.
  - apply E. apply new_referralCode_inj. exact Hv.
Qed.

(** X22.  Referral codes stay unique and resolve to their owner.  If user
    ids are unique and every account carries the code generated from its id,
    then in every state observed while any sequence of requests is served no
    two accounts share a referral code, and looking up the code of any
    account returns that very account. *)
Theorem referral_codes_resolve (s : state) (rs : list request) :
  NoDup (map userId (users s)) ->
  Forall (fun u => referralCode u = new_referralCode (userId u)) (users s) ->
  Forall (fun s' =>
            NoDup (map referralCode (users s')) /\
            forall u, In u (users s') ->
                      findOne_referralCode (users s') (referralCode u)
                      = Some u)
         (trace s rs).
Proof.
  intros Hnd Hgen.
  eapply Forall_impl;
    [| apply (trace_invariant
                (fun s' =>
                   NoDup (map userId (users s')) /\
                   Forall (fun u => referralCode u
                                    = new_referralCode (userId u))
                          (users s')))].
  - intros s' [Hnd' Hgen'].
    pose proof (generated_codes_unique _ Hnd' Hgen') as Hcodes.
    split; [exact Hcodes |].
    intros u Hin. apply findOne_referralCode_unique; assumption.
  - intros s0 r [Hnd0 Hgen0]. split.
    + apply handle_user_ids_unique. exact Hnd0.
    + apply handle_codes_generated. exact Hgen0.
  - split; assumption.
Qed.

Lemma referral_codes_resolve_witness :
  NoDup (map userId (users sample_state)) /\
  Forall (fun u => referralCode u = new_referralCode (userId u))
         (users sample_state) /\
  Forall (fun s' =>
            NoDup (map referralCode (users s')) /\
            forall u, In u (users s') ->
                      findOne_referralCode (users s') (referralCode u)
                      = Some u)
         (trace sample_state sample_requests).
Proof.
  assert (Hnd : NoDup (map userId (users sample_state))).
  { simpl. repeat constructor; simpl; intuition discriminate. }
  assert (Hgen : Forall (fun u => referralCode u
                                  = new_referralCode (userId u))
                        (users sample_state)).
  { simpl. repeat constructor. }
  split; [exact Hnd |]. split; [exact Hgen |].
  apply (referral_codes_resolve sample_state sample_requests Hnd Hgen).
Defined.

